(** * Lifting diary: the workout data layer, the form validation, the weight
    conversion and the unit preference, embedded in Rocq.

    The file follows the sources of the application:
    - [JS]                 the JavaScript values and built-ins the code calls
                           (strings, [parseInt], [Date.prototype.setHours]);
    - [WeightUtils]        lib/weight-utils.ts;
    - [WeightPreference]   lib/weight-preference.ts;
    - [Exercise], [Workout], [WorkoutExercise], [SetRow], [Db]
                           db/schema.ts (the four tables) and the store;
    - [Query]              ORDER BY of the query builder;
    - [Workouts]           data/workouts.ts (the query helpers);
    - [Actions]            the server actions that validate a form and call
                           the helpers;
    - [Spec]               the notions of the specification, in its words;
    - [Fixtures]           sample data;
    - [JSText]             integers written as text;
    - [Dashboard]          what the dashboard page shows of a duration;
    - [EditPage]           the edit page and the default values of its form;
    - [Seed]               db/seed.ts;
    - [Invariant]          well-formedness of the store;
    - [DatePicker]         the date string of the picker and its reading.
    Definitions come first, the statements about them afterwards. *)

From Stdlib Require Import ZArith NArith List String Ascii Lia QArith.
From Stdlib Require Import Floats.PrimFloat.
From Stdlib Require Floats.SpecFloat Floats.FloatOps Floats.FloatAxioms.
From stdpp Require Import base option list gmap sorting.

Set Warnings "-inexact-float".
Local Open Scope Z_scope.

(* ===================================================================== *)
(** ** JavaScript values *)
(* ===================================================================== *)

Module JS.

(** A JavaScript string is a sequence of UTF-16 code units. *)
Definition jsstring : Type := list N.

(** String literals of the sources, written as Rocq strings. *)
Fixpoint str (s : string) : jsstring :=
  match s with
  | EmptyString => []
  | String c r => N_of_ascii c :: str r
  end.

(** [!val] for [val : string | undefined]: [undefined] and the empty
    string are the falsy values. *)
Definition falsy_string (val : option jsstring) : bool :=
  match val with
  | None => true
  | Some [] => true
  | Some (_ :: _) => false
  end.

(** [x || null] for [x : number | undefined] over integer-valued numbers:
    [undefined] and [0] are falsy. *)
Definition or_null (x : option Z) : option Z :=
  match x with
  | None => None
  | Some n => if n =? 0 then None else Some n
  end.

(** *** parseInt(string, 10)

    ECMAScript's [parseInt]: leading white space is trimmed, an optional
    sign is read, then the longest prefix of decimal digits; no digit gives
    [NaN] (here [None]). The number read is kept as a mathematical
    integer. *)

(** WhiteSpace and LineTerminator code units. *)
Definition isWhiteSpace (c : N) : bool :=
  ((9 <=? c) && (c <=? 13) || (c =? 32) || (c =? 160) || (c =? 5760)
   || (8192 <=? c) && (c <=? 8202) || (c =? 8232) || (c =? 8233)
   || (c =? 8239) || (c =? 8287) || (c =? 12288) || (c =? 65279))%N.

Fixpoint trimStart (s : jsstring) : jsstring :=
  match s with
  | c :: r => if isWhiteSpace c then trimStart r else s
  | [] => []
  end.

Definition digitValue (c : N) : option Z :=
  if ((48 <=? c) && (c <=? 57))%N then Some (Z.of_N c - 48) else None.

(** The digits of the longest prefix made of decimal digits. *)
Fixpoint digitsPrefix (s : jsstring) : list Z :=
  match s with
  | c :: r =>
      match digitValue c with
      | Some d => d :: digitsPrefix r
      | None => []
      end
  | [] => []
  end.

Definition mathInt (ds : list Z) : Z :=
  fold_left (fun acc d => 10 * acc + d) ds 0.

Definition parseInt10 (s : jsstring) : option Z :=
  let trimmed := trimStart s in
  let '(sign, rest) :=
    match trimmed with
    | c :: r =>
        if (c =? 45)%N then (-1, r)          (* minus sign *)
        else if (c =? 43)%N then (1, r)      (* plus sign *)
        else (1, trimmed)
    | [] => (1, [])
    end in
  match digitsPrefix rest with
  | [] => None
  | ds => Some (sign * mathInt ds)
  end.

(** *** Dates

    A valid [Date] is its time value: milliseconds since the epoch, UTC.
    The local time zone is the host's [LocalTZA(t, isUTC)] of ECMAScript,
    the offset of local time in milliseconds. *)
Definition Date : Type := Z.

Definition msPerDay : Z := 86400000.
Definition msPerHour : Z := 3600000.
Definition msPerMinute : Z := 60000.
Definition msPerSecond : Z := 1000.

Definition Day (t : Z) : Z := t / msPerDay.

Definition MakeTime (hour min sec ms : Z) : Z :=
  hour * msPerHour + min * msPerMinute + sec * msPerSecond + ms.

Definition MakeDate (day time : Z) : Z := day * msPerDay + time.

Section LocalTime.
Variable LocalTZA : Z -> bool -> Z.

Definition LocalTime (t : Z) : Z := t + LocalTZA t true.
Definition UTC (t : Z) : Z := t - LocalTZA t false.

(** [d.setHours(hour, min, sec, ms)]: the time of day is replaced, in
    local time; the calendar day is kept. *)
Definition setHours (d : Date) (hour min sec ms : Z) : Date :=
  let t := LocalTime d in
  let date := MakeDate (Day t) (MakeTime hour min sec ms) in
  UTC date.
End LocalTime.

(** A host whose local time is UTC. *)
Definition utc : Z -> bool -> Z := fun _ _ => 0.

End JS.

Import JS.

(* ===================================================================== *)
(** ** lib/weight-utils.ts *)
(* ===================================================================== *)

Module WeightUtils.

(** [type WeightUnit = 'lbs' | 'kg'] *)
Inductive WeightUnit : Type := lbs | kg.

Definition unit_string (u : WeightUnit) : jsstring :=
  match u with
  | lbs => str "lbs"
  | kg => str "kg"
  end.

Definition WeightUnit_eqb (a b : WeightUnit) : bool :=
  match a, b with
  | lbs, lbs | kg, kg => true
  | _, _ => false
  end.

(** Numbers are IEEE 754 binary64 values, as in JavaScript. *)
Definition LBS_TO_KG : float := 0.453592%float.
Definition KG_TO_LBS : float := 2.20462%float.

(** The same constants as the decimal fractions the source writes. *)
Definition LBS_TO_KG_decimal : Q := 453592 # 1000000.
Definition KG_TO_LBS_decimal : Q := 220462 # 100000.

(** [weight: number | string] *)
Inductive weight_input : Type :=
| WNum (n : float)
| WStr (s : jsstring).

Section convert.
(** The built-in [parseFloat]. *)
Variable parseFloat : jsstring -> float.

(** [typeof weight === 'string' ? parseFloat(weight) : weight] *)
Definition numWeight (weight : weight_input) : float :=
  match weight with
  | WStr s => parseFloat s
  | WNum n => n
  end.

Definition convertWeight (weight : weight_input)
    (fromUnit toUnit : WeightUnit) : float :=
  let numWeight := numWeight weight in
  if is_nan numWeight then 0%float
  else if WeightUnit_eqb fromUnit toUnit then numWeight
  else if WeightUnit_eqb fromUnit lbs && WeightUnit_eqb toUnit kg
       then (numWeight * LBS_TO_KG)%float
  else if WeightUnit_eqb fromUnit kg && WeightUnit_eqb toUnit lbs
       then (numWeight * KG_TO_LBS)%float
  else numWeight.
End convert.

(** [isValidWeightUnit(value)]: [value === 'lbs' || value === 'kg'], on
    the values a cookie read yields ([string | undefined]). *)
Definition isValidWeightUnit (value : option jsstring) : bool :=
  bool_decide (value = Some (str "lbs")) || bool_decide (value = Some (str "kg")).

End WeightUtils.

(* ===================================================================== *)
(** ** lib/weight-preference.ts *)
(* ===================================================================== *)

Module WeightPreference.
Import WeightUtils.

Definition COOKIE_NAME : jsstring := str "weight-unit".
Definition DEFAULT_UNIT : WeightUnit := lbs.

(** The request's cookies: a map from cookie name to value. *)
Abbreviation cookies := (gmap jsstring jsstring).

(** The narrowing of the type guard: a value that passed
    [isValidWeightUnit] is used as a [WeightUnit]. *)
Definition asWeightUnit (s : jsstring) : WeightUnit :=
  if bool_decide (s = str "kg") then kg else lbs.

Definition getWeightUnitPreference (cookieStore : cookies) : WeightUnit :=
  let unit := cookieStore !! COOKIE_NAME in
  if isValidWeightUnit unit then
    match unit with
    | Some s => asWeightUnit s
    | None => DEFAULT_UNIT
    end
  else DEFAULT_UNIT.

Definition setWeightUnitPreferenceCookie (unit : WeightUnit)
    (cookieStore : cookies) : cookies :=
  <[COOKIE_NAME := unit_string unit]> cookieStore.

End WeightPreference.

(* ===================================================================== *)
(** ** db/schema.ts: the tables *)
(* ===================================================================== *)

Module Exercise.
Record t : Type := {
  id : Z;
  name : jsstring;
  description : option jsstring;
  muscleGroup : option jsstring;
  createdAt : Date;
}.
End Exercise.

Module Workout.
Record t : Type := {
  id : Z;
  userId : jsstring;
  name : jsstring;
  date : Date;
  durationMinutes : option Z;
  createdAt : Date;
  updatedAt : Date;
}.
End Workout.

Module WorkoutExercise.
Record t : Type := {
  id : Z;
  workoutId : Z;
  exerciseId : Z;
  orderIndex : Z;
  createdAt : Date;
}.
End WorkoutExercise.

(** A row of the [sets] table (type [Set] of the schema); [weight] is a
    [numeric] column, which the driver yields as a string. *)
Module SetRow.
Record t : Type := {
  id : Z;
  workoutExerciseId : Z;
  setNumber : Z;
  reps : Z;
  weight : jsstring;
  createdAt : Date;
}.
End SetRow.

(** The store. Each table is the list of its rows in the order the store
    yields them to a scan; SQL leaves that order open, and it need not be the
    order of insertion or of the identifiers. [workouts_id_seq] is the
    sequence behind [workouts.id] ([serial]). Integer columns hold any
    integer and text columns any string: the store's range and length checks
    are not part of the model. *)
Module Db.
Record t : Type := {
  exercises : list Exercise.t;
  workouts : list Workout.t;
  workoutExercises : list WorkoutExercise.t;
  sets : list SetRow.t;
  workouts_id_seq : Z;
}.

(** [workouts.id] is the primary key. *)
Definition workouts_pkey (db : t) : Prop :=
  NoDup (map Workout.id (workouts db)).

(** [workout_exercises.exercise_id] references [exercises.id]. *)
Definition exercise_fkey (db : t) : Prop :=
  forall we, In we (workoutExercises db) ->
    exists e, In e (exercises db) /\ Exercise.id e = WorkoutExercise.exerciseId we.
End Db.

(* ===================================================================== *)
(** ** The query builder: ORDER BY *)
(* ===================================================================== *)

Module Query.

(** [asc(column)] and [desc(column)] on an integer or timestamp column. *)
Definition asc {A} (column : A -> Z) (a b : A) : bool := column a <=? column b.
Definition desc {A} (column : A -> Z) (a b : A) : bool := column b <=? column a.

Fixpoint insert_sorted {A} (leb : A -> A -> bool) (x : A) (l : list A) : list A :=
  match l with
  | [] => [x]
  | y :: r => if leb x y then x :: y :: r else y :: insert_sorted leb x r
  end.

(** [orderBy]: the rows sorted by the given order. SQL leaves the relative
    order of rows with equal keys to the store: here such rows stay in the
    order the store yielded them. *)
Fixpoint orderBy {A} (leb : A -> A -> bool) (rows : list A) : list A :=
  match rows with
  | [] => []
  | x :: r => insert_sorted leb x (orderBy leb r)
  end.

End Query.

(* ===================================================================== *)
(** ** data/workouts.ts *)
(* ===================================================================== *)

Module SetDetails.
Record t : Type := {
  id : Z;
  setNumber : Z;
  reps : Z;
  weight : jsstring;
}.
End SetDetails.

Module ExerciseDetails.
Record t : Type := {
  id : Z;
  name : jsstring;
  muscleGroup : option jsstring;
  orderIndex : Z;
  sets : list SetDetails.t;
}.
End ExerciseDetails.

Module WorkoutWithDetails.
Record t : Type := {
  id : Z;
  name : jsstring;
  date : Date;
  durationMinutes : option Z;
  exercises : list ExerciseDetails.t;
}.
End WorkoutWithDetails.

Module Workouts.
Import Query.

(** What [db.query.workouts.findMany] yields with the [with] clause of
    [getWorkoutsByDate]: each workout with its workout exercises, each with
    its exercise (the [one] relation) and its sets. *)
Record WorkoutExerciseRow : Type := {
  we_row : WorkoutExercise.t;
  we_exercise : option Exercise.t;
  we_sets : list SetRow.t;
}.

Record WorkoutRow : Type := {
  w_row : Workout.t;
  w_workoutExercises : list WorkoutExerciseRow;
}.

Definition with_sets (db : Db.t) (we : WorkoutExercise.t) : list SetRow.t :=
  orderBy (asc SetRow.setNumber)
    (List.filter (fun s => SetRow.workoutExerciseId s =? WorkoutExercise.id we)
       (Db.sets db)).

Definition with_exercise (db : Db.t) (we : WorkoutExercise.t) : option Exercise.t :=
  List.find (fun e => Exercise.id e =? WorkoutExercise.exerciseId we)
    (Db.exercises db).

Definition with_workoutExercises (db : Db.t) (w : Workout.t) : list WorkoutExerciseRow :=
  map (fun we => {| we_row := we;
                    we_exercise := with_exercise db we;
                    we_sets := with_sets db we |})
    (orderBy (asc WorkoutExercise.orderIndex)
       (List.filter (fun we => WorkoutExercise.workoutId we =? Workout.id w)
          (Db.workoutExercises db))).

(** The [where] clause of [getWorkoutsByDate]:
    [and(eq(userId), gte(date, startOfDay), lt(date, endOfDay))]. *)
Definition where_user_and_day (userId : jsstring) (startOfDay endOfDay : Date)
    (w : Workout.t) : bool :=
  bool_decide (Workout.userId w = userId)
  && (startOfDay <=? Workout.date w)
  && (Workout.date w <? endOfDay).

Definition findMany (db : Db.t) (userId : jsstring) (startOfDay endOfDay : Date)
    : list WorkoutRow :=
  map (fun w => {| w_row := w; w_workoutExercises := with_workoutExercises db w |})
    (orderBy (desc Workout.date)
       (List.filter (where_user_and_day userId startOfDay endOfDay)
          (Db.workouts db))).

(** The transformation to [WorkoutWithDetails]. Reading [we.exercise.id] of
    a missing exercise throws; [None] stands for that exception. *)
Definition set_details (s : SetRow.t) : SetDetails.t :=
  {| SetDetails.id := SetRow.id s;
     SetDetails.setNumber := SetRow.setNumber s;
     SetDetails.reps := SetRow.reps s;
     SetDetails.weight := SetRow.weight s |}.

Definition exercise_details (r : WorkoutExerciseRow) : option ExerciseDetails.t :=
  match we_exercise r with
  | Some e =>
      Some {| ExerciseDetails.id := Exercise.id e;
              ExerciseDetails.name := Exercise.name e;
              ExerciseDetails.muscleGroup := Exercise.muscleGroup e;
              ExerciseDetails.orderIndex := WorkoutExercise.orderIndex (we_row r);
              ExerciseDetails.sets := map set_details (we_sets r) |}
  | None => None
  end.

Definition workout_details (r : WorkoutRow) : option WorkoutWithDetails.t :=
  match mapM exercise_details (w_workoutExercises r) with
  | Some exs =>
      Some {| WorkoutWithDetails.id := Workout.id (w_row r);
              WorkoutWithDetails.name := Workout.name (w_row r);
              WorkoutWithDetails.date := Workout.date (w_row r);
              WorkoutWithDetails.durationMinutes := Workout.durationMinutes (w_row r);
              WorkoutWithDetails.exercises := exs |}
  | None => None
  end.

Section getWorkoutsByDate.
Variable LocalTZA : Z -> bool -> Z.

Definition getWorkoutsByDate (db : Db.t) (userId : jsstring) (date : Date)
    : option (list WorkoutWithDetails.t) :=
  let startOfDay := setHours LocalTZA date 0 0 0 0 in
  let endOfDay := setHours LocalTZA date 23 59 59 999 in
  let workoutData := findMany db userId startOfDay endOfDay in
  mapM workout_details workoutData.
End getWorkoutsByDate.

(** The argument of [createWorkoutHelper] and the data of an update. *)
Record NewWorkoutData : Type := {
  data_name : jsstring;
  data_date : Date;
  data_durationMinutes : option Z;
  data_userId : jsstring;
}.

(** [createWorkoutHelper]: one row inserted and returned. [createdAt] and
    [updatedAt] are the two readings of the clock the source takes. *)
Definition createWorkoutHelper (now_created now_updated : Date) (db : Db.t)
    (data : NewWorkoutData) : Workout.t * Db.t :=
  let workout :=
    {| Workout.id := Db.workouts_id_seq db;
       Workout.userId := data_userId data;
       Workout.name := data_name data;
       Workout.date := data_date data;
       Workout.durationMinutes := or_null (data_durationMinutes data);
       Workout.createdAt := now_created;
       Workout.updatedAt := now_updated |} in
  (workout,
   {| Db.exercises := Db.exercises db;
      Db.workouts := Db.workouts db ++ [workout];
      Db.workoutExercises := Db.workoutExercises db;
      Db.sets := Db.sets db;
      Db.workouts_id_seq := Db.workouts_id_seq db + 1 |}).

(** The filter both [getWorkoutById] and [updateWorkoutHelper] carry: the
    workout id and the user id, in one predicate. *)
Definition where_id_and_user (workoutId : Z) (userId : jsstring) (w : Workout.t) : bool :=
  (Workout.id w =? workoutId) && bool_decide (Workout.userId w = userId).

(** Modelled from the spec: [getWorkoutById] of data/workouts.ts is imported
    by the edit page but is not among the sources (the data-fetching
    guideline only shows a sample of it). The spec: it filters by both
    workoutId and userId in the same query, the two predicates ANDed, and
    returns the workout or "absent". *)
Definition getWorkoutById (db : Db.t) (workoutId : Z) (userId : jsstring)
    : option Workout.t :=
  head (List.filter (where_id_and_user workoutId userId) (Db.workouts db)).

(** The fields an update writes. *)
Record WorkoutFields : Type := {
  fields_name : jsstring;
  fields_date : Date;
  fields_durationMinutes : option Z;
}.

(** Modelled from the spec: [updateWorkoutHelper] of data/workouts.ts is
    called by the [updateWorkout] action but is not among the sources. The
    spec: the update statement itself carries the userId filter, so it
    affects zero rows and yields "absent" when the workout is not the
    user's; name, date and duration are written together, and the
    updated-timestamp is always refreshed. *)
Definition updateWorkoutHelper (now : Date) (db : Db.t) (workoutId : Z)
    (userId : jsstring) (data : WorkoutFields) : option Workout.t * Db.t :=
  let set (w : Workout.t) : Workout.t :=
    {| Workout.id := Workout.id w;
       Workout.userId := Workout.userId w;
       Workout.name := fields_name data;
       Workout.date := fields_date data;
       Workout.durationMinutes := fields_durationMinutes data;
       Workout.createdAt := Workout.createdAt w;
       Workout.updatedAt := now |} in
  let rows :=
    map (fun w => if where_id_and_user workoutId userId w then set w else w)
      (Db.workouts db) in
  (head (map set (List.filter (where_id_and_user workoutId userId) (Db.workouts db))),
   {| Db.exercises := Db.exercises db;
      Db.workouts := rows;
      Db.workoutExercises := Db.workoutExercises db;
      Db.sets := Db.sets db;
      Db.workouts_id_seq := Db.workouts_id_seq db |}).

End Workouts.

(* ===================================================================== *)
(** ** The server actions: app/dashboard/workout/new/actions.ts and
       app/dashboard/workout/[workoutId]/actions.ts *)
(* ===================================================================== *)

Module Actions.
Import Workouts.

(** [Record<string, string[]>]: the messages of each field that failed. *)
Abbreviation fieldErrors := (gmap jsstring (list jsstring)).

Inductive Errors : Type :=
| FieldErrors (errors : fieldErrors)
| Message (errors : jsstring).

(** [ActionResult<T>] *)
Inductive ActionResult (T : Type) : Type :=
| Success (data : T)
| Failure (errors : Errors).
Arguments Success {T} data.
Arguments Failure {T} errors.

(** The form fields both actions validate. *)
Record WorkoutForm : Type := {
  name : jsstring;
  date : jsstring;
  durationMinutes : option jsstring;
}.

Record UpdateWorkoutParams : Type := {
  workoutId : Z;
  form : WorkoutForm;
}.

(** The output of the schema. *)
Record ValidWorkout : Type := {
  valid_name : jsstring;
  valid_date : jsstring;
  valid_durationMinutes : option Z;
}.

(** The transform of the [durationMinutes] field:
    [if (!val || val === '') return undefined;
     const num = parseInt(val, 10);
     return isNaN(num) ? undefined : num;] *)
Definition durationMinutes_transform (val : option jsstring) : option Z :=
  if falsy_string val || bool_decide (val = Some []) then None
  else
    match val with
    | Some s =>
        match parseInt10 s with
        | None => None
        | Some num => Some num
        end
    | None => None
    end.

(** The issues of the [name] field: [.min(1, ...)] and [.max(255, ...)]. *)
Definition name_issues (val : jsstring) : list jsstring :=
  (if (length val <? 1)%nat then [str "Workout name is required"] else [])
  ++ (if (255 <? length val)%nat then [str "Workout name is too long"] else []).

Definition flatten_field (field : jsstring) (issues : list jsstring)
    (errors : fieldErrors) : fieldErrors :=
  match issues with
  | [] => errors
  | _ :: _ => <[field := issues]> errors
  end.

Section schema.
(** The built-in [Date.parse]; [None] is [NaN]. *)
Variable Date_parse : jsstring -> option Z.

(** The issues of the [date] field: the refinement
    [!isNaN(Date.parse(val))]. *)
Definition date_issues (val : jsstring) : list jsstring :=
  match Date_parse val with
  | Some _ => []
  | None => [str "Invalid date format"]
  end.

(** [schema.safeParse(params)], a failure already flattened to its
    [fieldErrors]. The [durationMinutes] field has no check, only its
    transform. Both actions declare this schema, in the same words. *)
Definition safeParse (params : WorkoutForm) : ValidWorkout + fieldErrors :=
  match name_issues (name params), date_issues (date params) with
  | [], [] =>
      inl {| valid_name := name params;
             valid_date := date params;
             valid_durationMinutes := durationMinutes_transform (durationMinutes params) |}
  | ni, di =>
      inr (flatten_field (str "name") ni (flatten_field (str "date") di ∅))
  end.

Definition createWorkoutSchema := safeParse.
Definition updateWorkoutSchema := safeParse.

(** [!userId] for the [string | null] the identity provider yields. *)
Definition unauthenticated (userId : option jsstring) : bool := falsy_string userId.

(** [createWorkout(params)]. [auth] is what [auth()] yields for the request;
    the result comes with the store after the action. The [catch] branch is
    taken when the date handed to the store is not a valid [Date]. *)
Definition createWorkout (auth : option jsstring) (now_created now_updated : Date)
    (db : Db.t) (params : WorkoutForm) : ActionResult Workout.t * Db.t :=
  match auth with
  | Some userId =>
      if unauthenticated auth
      then (Failure (Message (str "Authentication required")), db)
      else
        match createWorkoutSchema params with
        | inr errors => (Failure (FieldErrors errors), db)
        | inl data =>
            match Date_parse (valid_date data) with
            | Some d =>
                let '(workout, db') :=
                  createWorkoutHelper now_created now_updated db
                    {| data_name := valid_name data;
                       data_date := d;
                       data_durationMinutes := valid_durationMinutes data;
                       data_userId := userId |} in
                (Success workout, db')
            | None =>
                (Failure (Message (str "Failed to create workout. Please try again.")), db)
            end
        end
  | None => (Failure (Message (str "Authentication required")), db)
  end.

(** [updateWorkout(params)]. *)
Definition updateWorkout (auth : option jsstring) (now : Date)
    (db : Db.t) (params : UpdateWorkoutParams) : ActionResult Workout.t * Db.t :=
  match auth with
  | Some userId =>
      if unauthenticated auth
      then (Failure (Message (str "Authentication required")), db)
      else
        match updateWorkoutSchema (form params) with
        | inr errors => (Failure (FieldErrors errors), db)
        | inl data =>
            match Date_parse (valid_date data) with
            | Some d =>
                let '(workout, db') :=
                  updateWorkoutHelper now db (workoutId params) userId
                    {| fields_name := valid_name data;
                       fields_date := d;
                       fields_durationMinutes := valid_durationMinutes data |} in
                match workout with
                | None =>
                    (Failure (Message (str
                       "Workout not found or you do not have permission to edit it")),
                     db')
                | Some w => (Success w, db')
                end
            | None =>
                (Failure (Message (str "Failed to update workout. Please try again.")), db)
            end
        end
  | None => (Failure (Message (str "Authentication required")), db)
  end.
End schema.

End Actions.

(* ===================================================================== *)
(** ** The wording of the specification *)
(* ===================================================================== *)

(** The notions the specification states its properties with, written after
    its words, to be compared with what the code above computes. *)
Module Spec.
Import Workouts Actions.

(** A blank form value: absent, empty, or white space only. *)
Definition blank (val : option jsstring) : Prop :=
  match val with
  | None => True
  | Some s => trimStart s = []
  end.

(** "durationMinutes: parsed from string to positive integer": a supplied,
    non-blank value is accepted only when it parses to a positive integer. *)
Definition duration_accepted_only_if_positive
    (schema : WorkoutForm -> ValidWorkout + fieldErrors) : Prop :=
  forall params s data,
    durationMinutes params = Some s ->
    ~ blank (Some s) ->
    schema params = inl data ->
    exists n, parseInt10 s = Some n /\ 0 < n /\ valid_durationMinutes data = Some n.

Section local_day.
Variable LocalTZA : Z -> bool -> Z.

(** The first instant of the local calendar day of [date], and of the day
    after. *)
Definition startOfLocalDay (date : Date) : Date :=
  UTC LocalTZA (MakeDate (Day (LocalTime LocalTZA date)) 0).
Definition startOfNextLocalDay (date : Date) : Date :=
  UTC LocalTZA (MakeDate (Day (LocalTime LocalTZA date) + 1) 0).

(** "[workout.date] within [startOfLocalDay(date), endOfLocalDay(date))",
    every instant of the day up to, and without, the next day's midnight. *)
Definition on_local_day (date : Date) (t : Date) : Prop :=
  startOfLocalDay date <= t < startOfNextLocalDay date.

(** The workouts the specification has [fetchWorkoutsForUserOnDate]
    return. *)
Definition workout_of_user_on_day (userId : jsstring) (date : Date)
    (w : Workout.t) : Prop :=
  Workout.userId w = userId /\ on_local_day date (Workout.date w).
End local_day.

(** "Workouts ordered by date descending, stable tie-break by
    insertion/identifier order". *)
Definition date_desc_then_id (a b : WorkoutWithDetails.t) : Prop :=
  WorkoutWithDetails.date b < WorkoutWithDetails.date a
  \/ (WorkoutWithDetails.date a = WorkoutWithDetails.date b
      /\ WorkoutWithDetails.id a <= WorkoutWithDetails.id b).

End Spec.

(* ===================================================================== *)
(** ** Sample data *)
(* ===================================================================== *)

Module Fixtures.
Import WeightUtils Workouts Actions.

(** [parseFloat] on the strings the examples use: a weight as the store
    yields it, and anything else read as [NaN]. *)
Definition parseFloat_sample (s : jsstring) : float :=
  if bool_decide (s = str "185.50") then 185.5%float else nan.

(** [Date.parse] on the strings the examples use (host in UTC). *)
Definition Date_parse_sample (s : jsstring) : option Z :=
  if bool_decide (s = str "2025-01-15") then Some 1736899200000
  else if bool_decide (s = str "2025-01-15T23:59:59.999Z") then Some 1736985599999
  else None.

Definition alice : jsstring := str "user_alice".
Definition bob : jsstring := str "user_bob".

(** 2025-01-15T00:00:00.000Z *)
Definition jan15 : Date := 1736899200000.

Definition workout (id : Z) (userId : jsstring) (name : string) (date : Date)
    : Workout.t :=
  {| Workout.id := id; Workout.userId := userId; Workout.name := str name;
     Workout.date := date; Workout.durationMinutes := None;
     Workout.createdAt := date; Workout.updatedAt := date |}.

Definition exercise (id : Z) (name group : string) : Exercise.t :=
  {| Exercise.id := id; Exercise.name := str name; Exercise.description := None;
     Exercise.muscleGroup := Some (str group); Exercise.createdAt := 0 |}.

Definition workoutExercise (id workoutId exerciseId orderIndex : Z)
    : WorkoutExercise.t :=
  {| WorkoutExercise.id := id; WorkoutExercise.workoutId := workoutId;
     WorkoutExercise.exerciseId := exerciseId;
     WorkoutExercise.orderIndex := orderIndex; WorkoutExercise.createdAt := 0 |}.

Definition set (id workoutExerciseId setNumber reps : Z) (weight : string)
    : SetRow.t :=
  {| SetRow.id := id; SetRow.workoutExerciseId := workoutExerciseId;
     SetRow.setNumber := setNumber; SetRow.reps := reps;
     SetRow.weight := str weight; SetRow.createdAt := 0 |}.

Definition catalog : list Exercise.t :=
  [exercise 1 "Bench Press" "Chest"; exercise 2 "Squat" "Legs";
   exercise 3 "Deadlift" "Back"].

(** Alice has one workout on 15 January with its exercises stored at order
    indices 0, 2, 1 and the sets of the first stored as 2, 1; Bob has one
    workout the same day. *)
Definition db_diary : Db.t :=
  {| Db.exercises := catalog;
     Db.workouts := [workout 1 alice "Push day" jan15; workout 2 bob "Leg day" jan15];
     Db.workoutExercises :=
       [workoutExercise 10 1 1 0; workoutExercise 11 1 3 2; workoutExercise 12 1 2 1];
     Db.sets := [set 100 10 2 5 "185.50"; set 101 10 1 8 "135.00"];
     Db.workouts_id_seq := 3 |}.

(** Alice logged two workouts on 15 January, both at the day's midnight as
    the form sends it; the store yields the second before the first. *)
Definition db_two_on_a_day : Db.t :=
  {| Db.exercises := catalog;
     Db.workouts := [workout 2 alice "Evening" jan15; workout 1 alice "Morning" jan15];
     Db.workoutExercises := [];
     Db.sets := [];
     Db.workouts_id_seq := 3 |}.

(** Nothing logged yet. *)
Definition db_empty : Db.t :=
  {| Db.exercises := catalog;
     Db.workouts := [];
     Db.workoutExercises := [];
     Db.sets := [];
     Db.workouts_id_seq := 1 |}.

(** Alice's only workout is dated 2025-01-15T23:59:59.999Z. *)
Definition db_late_workout : Db.t :=
  {| Db.exercises := catalog;
     Db.workouts := [workout 1 alice "Late session" 1736985599999];
     Db.workoutExercises := [];
     Db.sets := [];
     Db.workouts_id_seq := 2 |}.

Definition pull_day (durationMinutes : option Z) : NewWorkoutData :=
  {| data_name := str "Pull day"; data_date := jan15;
     data_durationMinutes := durationMinutes; data_userId := alice |}.

Definition form (name date : string) (durationMinutes : option string) : WorkoutForm :=
  {| Actions.name := str name; Actions.date := str date;
     Actions.durationMinutes := option_map str durationMinutes |}.

End Fixtures.

(* ===================================================================== *)
(** ** Numbers as text *)
(* ===================================================================== *)

Module JSText.

(** The code unit of a decimal digit. *)
Definition digitChar (d : Z) : N := Z.to_N (48 + d).

(** The decimal digits of a non-negative integer, most significant first;
    the fuel bounds the number of digits. *)
Fixpoint digitsOf (fuel : nat) (n : Z) : list Z :=
  match fuel with
  | O => []
  | S fuel' => if n <? 10 then [n] else digitsOf fuel' (n / 10) ++ [n mod 10]
  end.

(** [String(n)], and [n] in a template literal, for an integer [n] below
    10^21 in absolute value: its decimal digits, after a minus sign when it
    is negative. *)
Definition intToString (n : Z) : jsstring :=
  if n <? 0
  then 45%N :: map digitChar (digitsOf (S (Z.to_nat (Z.log2 (- n)))) (- n))
  else map digitChar (digitsOf (S (Z.to_nat (Z.log2 n))) n).

End JSText.

(* ===================================================================== *)
(** ** app/dashboard/page.tsx: what the dashboard shows of a duration *)
(* ===================================================================== *)

Module Dashboard.
Import JSText.

(** [formatDuration(minutes)]:
    [if (!minutes) return 'N/A';
     const hours = Math.floor(minutes / 60);
     const mins = minutes % 60;
     if (hours > 0) return `${hours}h ${mins}m`;
     return `${mins}m`;]
    [%] is the remainder that takes the sign of the dividend. *)
Definition formatDuration (minutes : option Z) : jsstring :=
  match or_null minutes with
  | None => str "N/A"
  | Some minutes =>
      let hours := minutes / 60 in
      let mins := Z.rem minutes 60 in
      if 0 <? hours
      then intToString hours ++ str "h " ++ intToString mins ++ str "m"
      else intToString mins ++ str "m"
  end.

(** What React puts on the page for
    [{workout.durationMinutes && (<><Clock/><span>{formatDuration(...)}</span></>)}]:
    nothing for [null], the number itself for [0], the clock and the
    formatted duration otherwise. *)
Inductive DurationElement : Type :=
| Nothing
| Text (text : jsstring)
| ClockAndSpan (text : jsstring).

Definition durationElement (durationMinutes : option Z) : DurationElement :=
  match durationMinutes with
  | None => Nothing
  | Some n =>
      if n =? 0 then Text (intToString n)
      else ClockAndSpan (formatDuration durationMinutes)
  end.

End Dashboard.

(* ===================================================================== *)
(** ** app/dashboard/workout/[workoutId]/page.tsx and edit-workout-form.tsx *)
(* ===================================================================== *)

Module EditPage.
Import JSText.

(** A page either redirects or renders the edit form with a workout. *)
Inductive PageResult : Type :=
| Redirect (path : jsstring)
| Render (workout : Workout.t).

Section page.
(** [getWorkoutById] of data/workouts.ts, as the page imports it. *)
Variable getWorkoutById : Z -> jsstring -> option Workout.t.

(** [EditWorkoutPage({ params })]: [auth] is what [auth()] yields,
    [workoutId] the segment of the URL. [redirect] does not return. *)
Definition EditWorkoutPage (auth : option jsstring) (workoutId : jsstring)
    : PageResult :=
  match auth with
  | Some userId =>
      if falsy_string auth then Redirect (str "/sign-in")
      else
        match parseInt10 workoutId with
        | None => Redirect (str "/dashboard")
        | Some workoutIdNum =>
            match getWorkoutById workoutIdNum userId with
            | None => Redirect (str "/dashboard")
            | Some workout => Render workout
            end
        end
  | None => Redirect (str "/sign-in")
  end.
End page.

(** The [defaultValue] of the duration input of the edit form:
    [workout.durationMinutes ?? ''], as the input holds it. *)
Definition durationDefaultValue (durationMinutes : option Z) : jsstring :=
  match durationMinutes with
  | Some n => intToString n
  | None => []
  end.

End EditPage.

(* ===================================================================== *)
(** ** db/seed.ts *)
(* ===================================================================== *)

Module Seed.

(** A row of [initialExercises]. *)
Record NewExercise : Type := {
  name : jsstring;
  muscleGroup : jsstring;
  description : jsstring;
}.

Definition newExercise (name muscleGroup description : string) : NewExercise :=
  {| name := str name; muscleGroup := str muscleGroup;
     description := str description |}.

Definition initialExercises : list NewExercise :=
  [ newExercise "Bench Press" "Chest" "Barbell bench press";
    newExercise "Squat" "Legs" "Barbell back squat";
    newExercise "Deadlift" "Back" "Conventional deadlift";
    newExercise "Overhead Press" "Shoulders" "Standing barbell press";
    newExercise "Barbell Row" "Back" "Bent-over barbell row";
    newExercise "Pull-ups" "Back" "Bodyweight pull-ups";
    newExercise "Dips" "Chest" "Bodyweight or weighted dips";
    newExercise "Romanian Deadlift" "Hamstrings" "RDL variation";
    newExercise "Leg Press" "Legs" "Machine leg press";
    newExercise "Lat Pulldown" "Back" "Cable lat pulldown" ].

(** A new row conflicts with the table when it would break one of its unique
    constraints: the primary key [id] or the unique [name]. *)
Definition conflicts (row : Exercise.t) (table : list Exercise.t) : bool :=
  existsb (fun e => (Exercise.id e =? Exercise.id row)
                    || bool_decide (Exercise.name e = Exercise.name row)) table.

(** [db.insert(exercises).values(values).onConflictDoNothing()]: the rows
    are taken in order; each gets the next value of the [id] sequence and the
    time of the statement as [createdAt], and is inserted unless it
    conflicts with a row already there. The result is the table and the
    sequence after the statement. *)
Fixpoint insert_onConflictDoNothing (now : Date) (values : list NewExercise)
    (exercises_id_seq : Z) (table : list Exercise.t) : list Exercise.t * Z :=
  match values with
  | [] => (table, exercises_id_seq)
  | v :: rest =>
      let row :=
        {| Exercise.id := exercises_id_seq;
           Exercise.name := name v;
           Exercise.description := Some (description v);
           Exercise.muscleGroup := Some (muscleGroup v);
           Exercise.createdAt := now |} in
      insert_onConflictDoNothing now rest (exercises_id_seq + 1)
        (if conflicts row table then table else table ++ [row])
  end.

(** [seed()] *)
Definition seed (now : Date) (exercises_id_seq : Z) (table : list Exercise.t)
    : list Exercise.t * Z :=
  insert_onConflictDoNothing now initialExercises exercises_id_seq table.

End Seed.

(* ===================================================================== *)
(** ** Invariants of the store *)
(* ===================================================================== *)

Module Invariant.

(** The sequence behind [workouts.id] is ahead of every id in the table, as
    it is when every row got its id from the sequence. *)
Definition workouts_seq_ahead (db : Db.t) : Prop :=
  forall w, In w (Db.workouts db) -> Workout.id w < Db.workouts_id_seq db.

(** The same for a table of exercises and its sequence. *)
Definition exercises_seq_ahead (exercises_id_seq : Z) (table : list Exercise.t) : Prop :=
  forall e, In e table -> Exercise.id e < exercises_id_seq.

End Invariant.

(* ===================================================================== *)
(** ** app/dashboard/date-picker.tsx and the date parameter of the page *)
(* ===================================================================== *)

Module DatePicker.
Import JSText.

(** [s.padStart(targetLength, c)] for a filler of one code unit. *)
Definition padStart (targetLength : nat) (filler : N) (s : jsstring) : jsstring :=
  repeat filler (targetLength - length s) ++ s.

(** The [dateStr] of [handleDateChange], from what [getFullYear()],
    [getMonth()] and [getDate()] yield:
    [`${year}-${String(month + 1).padStart(2, '0')}-${String(date).padStart(2, '0')}`]. *)
Definition dateStr (year month date : Z) : jsstring :=
  intToString year ++ str "-" ++ padStart 2 48 (intToString (month + 1))
  ++ str "-" ++ padStart 2 48 (intToString date).

Section picker.
(** The local-time getters of [Date]. *)
Variables getFullYear getMonth getDate : Date -> Z.

(** [handleDateChange(date)]: the URL pushed to the router, if any. *)
Definition handleDateChange (date : option Date) : option jsstring :=
  match date with
  | None => None
  | Some date =>
      Some (str "/dashboard?date="
            ++ dateStr (getFullYear date) (getMonth date) (getDate date))
  end.
End picker.

(** [s.split(separator)] for a separator of one code unit; [current] holds
    the piece being read, last code unit first. *)
Fixpoint split_from (separator : N) (s current : jsstring) : list jsstring :=
  match s with
  | [] => [rev current]
  | c :: rest =>
      if (c =? separator)%N then rev current :: split_from separator rest []
      else split_from separator rest (c :: current)
  end.

Definition split (separator : N) (s : jsstring) : list jsstring :=
  split_from separator s [].

(** [dateParam.split('-').map(Number)] of [DashboardPage]; [Number] is the
    built-in. *)
Definition dateParts {T : Type} (Number : jsstring -> T) (dateParam : jsstring)
    : list T :=
  map Number (split 45 dateParam).

End DatePicker.

(* ===================================================================== *)
(** * Statements *)
(* ===================================================================== *)

Import WeightUtils WeightPreference Workouts Actions.

(** ** Weight conversion *)

Lemma float_neq_of_eqb (x y : float) : PrimFloat.eqb x x = true -> PrimFloat.eqb x y = false -> x <> y.
Proof. intros Hx Hxy E. rewrite <- E in Hxy. congruence. Qed.

(** C5: converting a weight to the unit it is already in returns the
    numeric value of the input itself (the number passed, or the number
    [parseFloat] read from the string), with no arithmetic applied, for
    every weight that is a number (not [NaN]) and for both units. *)
Theorem convertWeight_same_unit (parseFloat : jsstring -> float)
    (weight : weight_input) (u : WeightUnit) :
  is_nan (numWeight parseFloat weight) = false ->
  convertWeight parseFloat weight u u = numWeight parseFloat weight
  /\ forall w, weight = WNum w -> convertWeight parseFloat weight u u = w.
Proof.
  intros Hnum.
  assert (E : convertWeight parseFloat weight u u = numWeight parseFloat weight).
  { unfold convertWeight. rewrite Hnum. destruct u; reflexivity. }
  split; [exact E|].
  intros w ->. exact E.
Qed.

Lemma convertWeight_same_unit_witness :
  convertWeight Fixtures.parseFloat_sample (WNum 185.5%float) kg kg = 185.5%float
  /\ convertWeight Fixtures.parseFloat_sample (WStr (str "185.50")) lbs lbs = 185.5%float.
Proof.
  split.
  - apply (convertWeight_same_unit Fixtures.parseFloat_sample (WNum 185.5%float) kg);
      reflexivity.
  - exact (proj1 (convertWeight_same_unit Fixtures.parseFloat_sample
                    (WStr (str "185.50")) lbs eq_refl)).
Defined.

(** C6: the two conversion constants are not inverse to each other. As the
    decimal fractions the source writes, their product is 0.99999799504, not
    1; as binary64 numbers their product is not 1 either; and converting the
    weight 100 from pounds to kilograms and back does not give 100: the
    result is lower by a relative drift between 0.0002% and 0.00021%. *)
Theorem conversion_constants_not_inverse :
  (LBS_TO_KG_decimal * KG_TO_LBS_decimal == 99999799504 # 100000000000)%Q
  /\ ~ (LBS_TO_KG_decimal * KG_TO_LBS_decimal == 1)%Q
  /\ (LBS_TO_KG * KG_TO_LBS)%float <> 1%float
  /\ exists w : float,
       (0 <? w)%float = true
       /\ forall parseFloat,
            let kilos := convertWeight parseFloat (WNum w) lbs kg in
            let back := convertWeight parseFloat (WNum kilos) kg lbs in
            back <> w
            /\ (0.000002 <? (w - back) / w)%float = true
            /\ ((w - back) / w <? 0.0000021)%float = true.
Proof.
  split; [reflexivity|].
  split; [intro H; vm_compute in H; discriminate|].
  split; [apply float_neq_of_eqb; reflexivity|].
  exists 100%float. split; [reflexivity|].
  intros parseFloat kilos back.
  split; [apply float_neq_of_eqb; reflexivity|].
  split; reflexivity.
Qed.

(** C7: [convertWeight] is total: for every input, number or string, and
    every pair of units it returns a number; when the input is not a number
    (a [NaN], or a string that [parseFloat] reads as [NaN]) the number
    returned is exactly 0. *)
Theorem convertWeight_total_nan_zero (parseFloat : jsstring -> float)
    (weight : weight_input) (fromUnit toUnit : WeightUnit) :
  exists r : float,
    convertWeight parseFloat weight fromUnit toUnit = r
    /\ (is_nan (numWeight parseFloat weight) = true -> r = 0%float).
Proof.
  eexists. split; [reflexivity|].
  intros Hnan. unfold convertWeight. rewrite Hnan. reflexivity.
Qed.

Lemma convertWeight_nan_witness :
  convertWeight Fixtures.parseFloat_sample (WStr (str "heavy")) lbs kg = 0%float.
Proof.
  destruct (convertWeight_total_nan_zero Fixtures.parseFloat_sample
              (WStr (str "heavy")) lbs kg) as [r [-> Hzero]].
  apply Hzero. reflexivity.
Defined.

(** ** The unit preference *)

Lemma isValidWeightUnit_spec (value : option jsstring) :
  isValidWeightUnit value = true <-> value = Some (str "lbs") \/ value = Some (str "kg").
Proof.
  unfold isValidWeightUnit.
  rewrite orb_true_iff, !bool_decide_eq_true. reflexivity.
Qed.

(** C8: [getWeightUnitPreference] is total and yields ['lbs'] when the
    cookie is absent and when its value is anything but ['lbs'] or ['kg']
    (['stone'], say); when the value passes the membership check, that value
    is the unit returned. *)
Theorem getWeightUnitPreference_default (cookieStore : cookies) :
  (cookieStore !! COOKIE_NAME = None -> getWeightUnitPreference cookieStore = lbs)
  /\ (forall v, cookieStore !! COOKIE_NAME = Some v ->
        v <> str "lbs" -> v <> str "kg" ->
        getWeightUnitPreference cookieStore = lbs)
  /\ (forall v, cookieStore !! COOKIE_NAME = Some v ->
        isValidWeightUnit (Some v) = true ->
        unit_string (getWeightUnitPreference cookieStore) = v).
Proof.
  unfold getWeightUnitPreference. repeat split.
  - intros ->. reflexivity.
  - intros v -> Hlbs Hkg.
    destruct (isValidWeightUnit (Some v)) eqn:E; [|reflexivity].
    apply isValidWeightUnit_spec in E as [E|E]; congruence.
  - intros v -> Hvalid. rewrite Hvalid.
    apply isValidWeightUnit_spec in Hvalid as [E|E];
      injection E as ->; reflexivity.
Qed.

Lemma getWeightUnitPreference_witness :
  getWeightUnitPreference ∅ = lbs
  /\ getWeightUnitPreference {[ COOKIE_NAME := str "stone" ]} = lbs
  /\ unit_string (getWeightUnitPreference {[ COOKIE_NAME := str "kg" ]}) = str "kg".
Proof.
  split; [|split].
  - apply (proj1 (getWeightUnitPreference_default ∅)). apply lookup_empty.
  - apply (proj1 (proj2 (getWeightUnitPreference_default _)) (str "stone")).
    + apply lookup_singleton_eq.
    + discriminate.
    + discriminate.
  - apply (proj2 (proj2 (getWeightUnitPreference_default _)) (str "kg")).
    + apply lookup_singleton_eq.
    + reflexivity.
Defined.

(** ** Creating a workout *)

(** C10: the row [createWorkoutHelper] inserts and returns has a null
    duration when the duration supplied is absent or 0 and the duration
    supplied otherwise; so its stored duration is never 0. *)
Theorem createWorkoutHelper_duration (now_created now_updated : Date)
    (db : Db.t) (data : NewWorkoutData) :
  let workout := fst (createWorkoutHelper now_created now_updated db data) in
  let db' := snd (createWorkoutHelper now_created now_updated db data) in
  Db.workouts db' = Db.workouts db ++ [workout]
  /\ (data_durationMinutes data = None -> Workout.durationMinutes workout = None)
  /\ (data_durationMinutes data = Some 0 -> Workout.durationMinutes workout = None)
  /\ (forall n, data_durationMinutes data = Some n -> n <> 0 ->
        Workout.durationMinutes workout = Some n)
  /\ Workout.durationMinutes workout <> Some 0.
Proof.
  cbn. repeat split.
  - intros ->. reflexivity.
  - intros ->. reflexivity.
  - intros n -> Hn. cbn. destruct (Z.eqb_spec n 0); [contradiction|reflexivity].
  - destruct (data_durationMinutes data) as [n|]; cbn; [|discriminate].
    destruct (Z.eqb_spec n 0); [discriminate|congruence].
Qed.

Lemma createWorkoutHelper_duration_witness :
  Workout.durationMinutes
    (fst (createWorkoutHelper Fixtures.jan15 Fixtures.jan15 Fixtures.db_diary
            (Fixtures.pull_day None))) = None
  /\ Workout.durationMinutes
       (fst (createWorkoutHelper Fixtures.jan15 Fixtures.jan15 Fixtures.db_diary
               (Fixtures.pull_day (Some 0)))) = None
  /\ Workout.durationMinutes
       (fst (createWorkoutHelper Fixtures.jan15 Fixtures.jan15 Fixtures.db_diary
               (Fixtures.pull_day (Some 45)))) = Some 45.
Proof.
  pose proof (createWorkoutHelper_duration Fixtures.jan15 Fixtures.jan15
                Fixtures.db_diary (Fixtures.pull_day None)) as (_ & H1 & _).
  pose proof (createWorkoutHelper_duration Fixtures.jan15 Fixtures.jan15
                Fixtures.db_diary (Fixtures.pull_day (Some 0))) as (_ & _ & H2 & _).
  pose proof (createWorkoutHelper_duration Fixtures.jan15 Fixtures.jan15
                Fixtures.db_diary (Fixtures.pull_day (Some 45))) as (_ & _ & _ & H3 & _).
  split; [|split].
  - apply H1. reflexivity.
  - apply H2. reflexivity.
  - apply (H3 45); [reflexivity | discriminate].
Defined.

(** ** Validating the duration *)

Lemma durationMinutes_transform_Some (s : jsstring) :
  durationMinutes_transform (Some s) = parseInt10 s.
Proof.
  unfold durationMinutes_transform. destruct s as [|c s]; cbn; [reflexivity|].
  destruct (parseInt10 (c :: s)); reflexivity.
Qed.

Example parseInt10_samples :
  parseInt10 (str "60") = Some 60
  /\ parseInt10 (str "  +42 min") = Some 42
  /\ parseInt10 (str "12abc") = Some 12
  /\ parseInt10 (str "3.7") = Some 3
  /\ parseInt10 (str "-5") = Some (-5)
  /\ parseInt10 (str "0") = Some 0
  /\ parseInt10 (str "abc") = None
  /\ parseInt10 (str "-") = None
  /\ parseInt10 (str "   ") = None
  /\ parseInt10 (str "") = None.
Proof. repeat split. Qed.

Lemma parseInt10_blank (s : jsstring) : trimStart s = [] -> parseInt10 s = None.
Proof. unfold parseInt10. intros ->. reflexivity. Qed.

Lemma durationMinutes_transform_blank (val : option jsstring) :
  Spec.blank val -> durationMinutes_transform val = None.
Proof.
  destruct val as [s|]; [|reflexivity].
  cbn. intros Hs. rewrite durationMinutes_transform_Some. now apply parseInt10_blank.
Qed.

Lemma safeParse_inl (Date_parse : jsstring -> option Z) (params : WorkoutForm)
    (data : ValidWorkout) :
  safeParse Date_parse params = inl data ->
  name_issues (name params) = [] /\ date_issues Date_parse (date params) = []
  /\ data = {| valid_name := name params; valid_date := date params;
               valid_durationMinutes :=
                 durationMinutes_transform (durationMinutes params) |}.
Proof.
  unfold safeParse.
  destruct (name_issues (name params)), (date_issues Date_parse (date params));
    intros E; try discriminate.
  injection E as <-. auto.
Qed.

Lemma safeParse_inr (Date_parse : jsstring -> option Z) (params : WorkoutForm) (errors : fieldErrors) :
  safeParse Date_parse params = inr errors ->
  errors !! str "durationMinutes" = None.
Proof.
  unfold safeParse, flatten_field.
  destruct (name_issues (name params)), (date_issues Date_parse (date params));
    intros E; try discriminate; injection E as <-;
    repeat (rewrite lookup_insert_ne by discriminate); apply lookup_empty.
Qed.

(** C3 (as the code has it): the [durationMinutes] field never fails the
    validation of [createWorkout] or [updateWorkout]: a form is accepted
    exactly when its name and date are, and the errors of a rejected form
    have no entry for the field. In an accepted form an absent or blank
    duration, and one [parseInt] cannot read, is "not provided"; a duration
    that [parseInt] reads as a positive integer is that integer. *)
Theorem durationMinutes_validation (Date_parse : jsstring -> option Z)
    (params : WorkoutForm) :
  createWorkoutSchema Date_parse params = updateWorkoutSchema Date_parse params
  /\ ((exists data, updateWorkoutSchema Date_parse params = inl data)
       <-> name_issues (name params) = []
           /\ date_issues Date_parse (date params) = [])
  /\ (forall errors, updateWorkoutSchema Date_parse params = inr errors ->
        errors !! str "durationMinutes" = None)
  /\ (forall data, updateWorkoutSchema Date_parse params = inl data ->
        (Spec.blank (durationMinutes params) -> valid_durationMinutes data = None)
        /\ (forall s, durationMinutes params = Some s -> parseInt10 s = None ->
              valid_durationMinutes data = None)
        /\ (forall s n, durationMinutes params = Some s -> parseInt10 s = Some n ->
              0 < n -> valid_durationMinutes data = Some n)).
Proof.
  unfold createWorkoutSchema, updateWorkoutSchema.
  split; [reflexivity|]. split; [|split].
  - split.
    + intros [data E]. apply safeParse_inl in E. tauto.
    + intros [Hn Hd]. unfold safeParse. rewrite Hn, Hd. eauto.
  - apply safeParse_inr.
  - intros data E. apply safeParse_inl in E as (_ & _ & ->). cbn.
    split; [apply durationMinutes_transform_blank|].
    split.
    + intros s -> Hs. now rewrite durationMinutes_transform_Some.
    + intros s n -> Hs _. now rewrite durationMinutes_transform_Some.
Qed.

Lemma durationMinutes_validation_witness :
  exists data,
    updateWorkoutSchema Fixtures.Date_parse_sample
      (Fixtures.form "Leg day" "2025-01-15" (Some "60"%string)) = inl data
    /\ valid_durationMinutes data = Some 60.
Proof.
  pose proof (durationMinutes_validation Fixtures.Date_parse_sample
                (Fixtures.form "Leg day" "2025-01-15" (Some "60"%string)))
    as (_ & [_ Hok] & _ & Hdata).
  destruct Hok as [data E]; [split; reflexivity|].
  exists data. split; [exact E|].
  apply (proj2 (proj2 (Hdata data E)) (str "60")).
  - reflexivity.
  - reflexivity.
  - lia.
Defined.

(** C3, as the specification words it, fails: the schema accepts the
    duration "abc", which is no integer, as "not provided", and accepts the
    duration "-5" as the integer -5. *)
Lemma durationMinutes_not_only_positive :
  createWorkoutSchema Fixtures.Date_parse_sample
    (Fixtures.form "Leg day" "2025-01-15" (Some "abc"%string))
  = inl {| valid_name := str "Leg day"; valid_date := str "2025-01-15";
           valid_durationMinutes := None |}
  /\ parseInt10 (str "abc") = None
  /\ createWorkoutSchema Fixtures.Date_parse_sample
       (Fixtures.form "Leg day" "2025-01-15" (Some "-5"%string))
     = inl {| valid_name := str "Leg day"; valid_date := str "2025-01-15";
              valid_durationMinutes := Some (-5) |}
  /\ ~ Spec.duration_accepted_only_if_positive
         (createWorkoutSchema Fixtures.Date_parse_sample).
Proof.
  split; [reflexivity|]. split; [reflexivity|]. split; [reflexivity|].
  intros Hspec.
  destruct (Hspec (Fixtures.form "Leg day" "2025-01-15" (Some "abc"%string)) (str "abc") _
              eq_refl ltac:(discriminate) eq_refl) as (n & Hn & _).
  discriminate Hn.
Qed.

(** The duration "-5" goes through [createWorkout] into the store. *)
Example createWorkout_stores_negative_duration :
  Workout.durationMinutes <$>
    Db.workouts (snd (createWorkout Fixtures.Date_parse_sample (Some Fixtures.alice)
                        Fixtures.jan15 Fixtures.jan15 Fixtures.db_empty
                        (Fixtures.form "Leg day" "2025-01-15" (Some "-5"%string))))
  = [Some (-5)].
Proof. reflexivity. Qed.

(** ** Ownership *)

Lemma filter_none {A} (f : A -> bool) (l : list A) :
  (forall x, In x l -> f x = false) -> List.filter f l = [].
Proof.
  induction l as [|a l IH]; intros Hall; [reflexivity|].
  cbn. rewrite (Hall a) by now left.
  apply IH. intros x Hx. apply Hall. now right.
Qed.

Lemma pkey_inj (db : Db.t) (w w' : Workout.t) :
  Db.workouts_pkey db -> In w (Db.workouts db) -> In w' (Db.workouts db) ->
  Workout.id w = Workout.id w' -> w = w'.
Proof.
  unfold Db.workouts_pkey.
  induction (Db.workouts db) as [|a l IH]; cbn; [tauto|].
  intros Hnd Hw Hw' Hid. inversion Hnd as [|? ? Hnotin Hnd']; subst.
  destruct Hw as [<-|Hw], Hw' as [<-|Hw']; auto.
  - exfalso. apply Hnotin, list_elem_of_In. rewrite Hid. now apply in_map.
  - exfalso. apply Hnotin, list_elem_of_In. rewrite <- Hid. now apply in_map.
Qed.

Lemma where_id_and_user_true (workoutId : Z) (userId : jsstring) (w : Workout.t) :
  where_id_and_user workoutId userId w = true <->
  Workout.id w = workoutId /\ Workout.userId w = userId.
Proof.
  unfold where_id_and_user.
  rewrite andb_true_iff, Z.eqb_eq, bool_decide_eq_true. reflexivity.
Qed.

(** No row passes the filter when the workout with that id is another
    user's. *)
Lemma no_match_foreign (db : Db.t) (userId : jsstring) (w : Workout.t) :
  Db.workouts_pkey db -> In w (Db.workouts db) -> Workout.userId w <> userId ->
  forall w', In w' (Db.workouts db) ->
    where_id_and_user (Workout.id w) userId w' = false.
Proof.
  intros Hpk Hw Hother w' Hw'.
  destruct (where_id_and_user (Workout.id w) userId w') eqn:E; [|reflexivity].
  apply where_id_and_user_true in E as [Hid Hu].
  assert (w' = w) by (eapply pkey_inj; eauto). subst. contradiction.
Qed.

(** No row passes the filter when no workout has that id. *)
Lemma no_match_missing (db : Db.t) (userId : jsstring) (workoutId : Z) :
  (forall w, In w (Db.workouts db) -> Workout.id w <> workoutId) ->
  forall w', In w' (Db.workouts db) ->
    where_id_and_user workoutId userId w' = false.
Proof.
  intros Hnone w' Hw'.
  destruct (where_id_and_user workoutId userId w') eqn:E; [|reflexivity].
  apply where_id_and_user_true in E as [Hid _]. now apply Hnone in Hw'.
Qed.

(** C1: a user who asks for a workout of another user, by its id, gets
    "absent"; and whatever [getWorkoutById] returns is a stored workout with
    the id asked for and the user id of the one who asks: both conditions
    are one filter. *)
Theorem getWorkoutById_isolation (db : Db.t) (userA userB : jsstring)
    (w : Workout.t) :
  userA <> userB ->
  Db.workouts_pkey db ->
  In w (Db.workouts db) ->
  Workout.userId w = userB ->
  getWorkoutById db (Workout.id w) userA = None
  /\ forall workoutId found,
       getWorkoutById db workoutId userA = Some found ->
       In found (Db.workouts db)
       /\ Workout.id found = workoutId /\ Workout.userId found = userA.
Proof.
  intros Hne Hpk Hw Hu. split.
  - unfold getWorkoutById. rewrite filter_none; [reflexivity|].
    apply no_match_foreign; auto. congruence.
  - intros workoutId found. unfold getWorkoutById.
    destruct (List.filter _ _) as [|x l] eqn:E; [discriminate|].
    cbn. intros [= ->].
    assert (Hin : In found (List.filter (where_id_and_user workoutId userA)
                              (Db.workouts db))) by (rewrite E; now left).
    apply filter_In in Hin as [Hin Hf].
    apply where_id_and_user_true in Hf. tauto.
Qed.

Lemma getWorkoutById_isolation_witness :
  getWorkoutById Fixtures.db_diary 2 Fixtures.alice = None
  /\ getWorkoutById Fixtures.db_diary 2 Fixtures.bob
     = Some (Fixtures.workout 2 Fixtures.bob "Leg day" Fixtures.jan15).
Proof.
  split; [|reflexivity].
  apply (getWorkoutById_isolation Fixtures.db_diary Fixtures.alice Fixtures.bob
           (Fixtures.workout 2 Fixtures.bob "Leg day" Fixtures.jan15)).
  - discriminate.
  - apply (bool_decide_unpack _). vm_compute. exact I.
  - cbn. auto.
  - reflexivity.
Defined.

(** ** Updating a workout *)

Lemma updateWorkoutHelper_no_match (now : Date) (db : Db.t) (workoutId : Z)
    (userId : jsstring) (data : WorkoutFields) :
  (forall w, In w (Db.workouts db) -> where_id_and_user workoutId userId w = false) ->
  updateWorkoutHelper now db workoutId userId data = (None, db).
Proof.
  intros Hnone. unfold updateWorkoutHelper.
  rewrite filter_none by exact Hnone. cbn.
  f_equal. destruct db as [es ws wes ss seq]; cbn in *. f_equal.
  induction ws as [|a ws IH]; [reflexivity|].
  cbn. rewrite (Hnone a) by now left.
  f_equal. apply IH. intros x Hx. apply Hnone. now right.
Qed.

Lemma updateWorkout_no_match (Date_parse : jsstring -> option Z)
    (userId : jsstring) (now : Date) (db : Db.t) (params : UpdateWorkoutParams) :
  userId <> [] ->
  (exists data, updateWorkoutSchema Date_parse (form params) = inl data) ->
  (forall w, In w (Db.workouts db) ->
     where_id_and_user (workoutId params) userId w = false) ->
  updateWorkout Date_parse (Some userId) now db params
  = (Failure (Message (str
       "Workout not found or you do not have permission to edit it")), db).
Proof.
  intros Hauth [data Hvalid] Hnone. unfold updateWorkout.
  destruct userId as [|c u]; [contradiction|]. cbn [unauthenticated falsy_string].
  rewrite Hvalid.
  apply safeParse_inl in Hvalid as (_ & Hdate & ->). cbn [valid_date].
  unfold date_issues in Hdate.
  destruct (Date_parse (date (form params))) as [d|]; [|discriminate].
  rewrite updateWorkoutHelper_no_match by exact Hnone. reflexivity.
Qed.

(** C9: for an authenticated user and validly shaped input, [updateWorkout]
    on the id of another user's workout and [updateWorkout] on an id no
    workout has return the same result: the failure with the one message
    "Workout not found or you do not have permission to edit it", which is
    not a map of field errors; neither run changes the store. *)
Theorem updateWorkout_not_found_uniform (Date_parse : jsstring -> option Z)
    (userId : jsstring) (now1 now2 : Date) (db1 db2 : Db.t)
    (foreign missing : UpdateWorkoutParams) (w : Workout.t) :
  userId <> [] ->
  (exists data, updateWorkoutSchema Date_parse (form foreign) = inl data) ->
  (exists data, updateWorkoutSchema Date_parse (form missing) = inl data) ->
  Db.workouts_pkey db1 ->
  In w (Db.workouts db1) ->
  Workout.id w = workoutId foreign ->
  Workout.userId w <> userId ->
  (forall w', In w' (Db.workouts db2) -> Workout.id w' <> workoutId missing) ->
  let r1 := updateWorkout Date_parse (Some userId) now1 db1 foreign in
  let r2 := updateWorkout Date_parse (Some userId) now2 db2 missing in
  fst r1 = fst r2
  /\ fst r1 = Failure (Message (str
        "Workout not found or you do not have permission to edit it"))
  /\ (forall errors, fst r1 <> Failure (FieldErrors errors))
  /\ snd r1 = db1 /\ snd r2 = db2.
Proof.
  intros Hauth Hv1 Hv2 Hpk Hw Hid Hother Hmissing r1 r2.
  assert (E1 : r1 = (Failure (Message (str
            "Workout not found or you do not have permission to edit it")), db1)).
  { apply updateWorkout_no_match; auto.
    rewrite <- Hid. now apply no_match_foreign. }
  assert (E2 : r2 = (Failure (Message (str
            "Workout not found or you do not have permission to edit it")), db2)).
  { apply updateWorkout_no_match; auto. now apply no_match_missing. }
  rewrite E1, E2. cbn. repeat split; discriminate.
Qed.

Lemma updateWorkout_not_found_witness :
  fst (updateWorkout Fixtures.Date_parse_sample (Some Fixtures.alice) Fixtures.jan15
         Fixtures.db_diary
         {| workoutId := 2; form := Fixtures.form "Renamed" "2025-01-15" None |})
  = fst (updateWorkout Fixtures.Date_parse_sample (Some Fixtures.alice) Fixtures.jan15
           Fixtures.db_diary
           {| workoutId := 99;
              form := Fixtures.form "Renamed" "2025-01-15" (Some "30"%string) |}).
Proof.
  refine (proj1 (updateWorkout_not_found_uniform Fixtures.Date_parse_sample
                   Fixtures.alice Fixtures.jan15 Fixtures.jan15
                   Fixtures.db_diary Fixtures.db_diary _ _
                   (Fixtures.workout 2 Fixtures.bob "Leg day" Fixtures.jan15)
                   _ _ _ _ _ _ _ _)).
  - discriminate.
  - eexists. reflexivity.
  - eexists. reflexivity.
  - apply (bool_decide_unpack _). vm_compute. exact I.
  - cbn. auto.
  - reflexivity.
  - discriminate.
  - cbn. intros w' [<-|[<-|[]]]; discriminate.
Defined.

(** ** Fetching the workouts of a day *)

Lemma insert_sorted_In {A} (leb : A -> A -> bool) (x y : A) (l : list A) :
  In y (Query.insert_sorted leb x l) <-> y = x \/ In y l.
Proof.
  induction l as [|a l IH]; cbn.
  - intuition.
  - destruct (leb x a); cbn; [intuition|]. rewrite IH. intuition.
Qed.

Lemma orderBy_In {A} (leb : A -> A -> bool) (y : A) (l : list A) :
  In y (Query.orderBy leb l) <-> In y l.
Proof.
  induction l as [|a l IH]; cbn; [reflexivity|].
  rewrite insert_sorted_In, IH. intuition.
Qed.

Section order_by.
Context {A : Type} (key : A -> Z).

Lemma insert_sorted_asc (x : A) (l : list A) :
  StronglySorted (fun a b => key a <= key b) l ->
  StronglySorted (fun a b => key a <= key b) (Query.insert_sorted (Query.asc key) x l).
Proof.
  induction 1 as [|a l Hs IH Hall]; cbn.
  - repeat constructor.
  - unfold Query.asc at 1. destruct (Z.leb_spec (key x) (key a)) as [Hle|Hgt].
    + constructor; [now constructor|].
      constructor; [exact Hle|].
      eapply Forall_impl; [exact Hall|]. cbn. intros; lia.
    + constructor; [exact IH|].
      apply List.Forall_forall. intros y Hy. apply insert_sorted_In in Hy as [->|Hy].
      * lia.
      * rewrite List.Forall_forall in Hall. now apply Hall.
Qed.

Lemma orderBy_asc_sorted (l : list A) :
  StronglySorted (fun a b => key a <= key b) (Query.orderBy (Query.asc key) l).
Proof.
  induction l as [|a l IH]; cbn; [constructor|]. now apply insert_sorted_asc.
Qed.

Lemma insert_sorted_desc (x : A) (l : list A) :
  StronglySorted (fun a b => key b <= key a) l ->
  StronglySorted (fun a b => key b <= key a) (Query.insert_sorted (Query.desc key) x l).
Proof.
  induction 1 as [|a l Hs IH Hall]; cbn.
  - repeat constructor.
  - unfold Query.desc at 1. destruct (Z.leb_spec (key a) (key x)) as [Hle|Hgt].
    + constructor; [now constructor|].
      constructor; [exact Hle|].
      eapply Forall_impl; [exact Hall|]. cbn. intros; lia.
    + constructor; [exact IH|].
      apply List.Forall_forall. intros y Hy. apply insert_sorted_In in Hy as [->|Hy].
      * lia.
      * rewrite List.Forall_forall in Hall. now apply Hall.
Qed.

Lemma orderBy_desc_sorted (l : list A) :
  StronglySorted (fun a b => key b <= key a) (Query.orderBy (Query.desc key) l).
Proof.
  induction l as [|a l IH]; cbn; [constructor|]. now apply insert_sorted_desc.
Qed.
End order_by.

(** An order carried along a pointwise relation between two lists. *)
Lemma StronglySorted_Forall2 {A B} (R : A -> A -> Prop) (R' : B -> B -> Prop)
    (P : A -> B -> Prop) (l : list A) (k : list B) :
  (forall a a' b b', P a b -> P a' b' -> R a a' -> R' b b') ->
  Forall2 P l k -> StronglySorted R l -> StronglySorted R' k.
Proof.
  intros Hcarry HP. induction HP as [|a b l k Hab HP IH]; intros Hs.
  - constructor.
  - inversion Hs as [|? ? Hs' Hall]; subst. constructor; [now apply IH|].
    clear IH Hs Hs'. induction HP as [|a' b' l k Ha'b' HP IH]; [constructor|].
    inversion Hall; subst. constructor; eauto.
Qed.

Lemma StronglySorted_map {A B} (R : B -> B -> Prop) (f : A -> B) (l : list A) :
  StronglySorted (fun a a' => R (f a) (f a')) l -> StronglySorted R (map f l).
Proof.
  induction 1 as [|a l Hs IH Hall]; cbn; constructor; [exact IH|].
  apply List.Forall_forall. intros b Hb. apply in_map_iff in Hb as (a' & <- & Ha').
  rewrite List.Forall_forall in Hall. now apply Hall.
Qed.

Lemma Forall2_source {A B} (P : A -> B -> Prop) (l : list A) (k : list B) :
  Forall2 P l k -> Forall (fun b => exists a, In a l /\ P a b) k.
Proof.
  induction 1 as [|a b l k Hab _ IH]; constructor.
  - exists a. split; [now left|exact Hab].
  - eapply Forall_impl; [exact IH|]. cbn. intros b' (a' & Ha' & Hp).
    exists a'. split; [now right|exact Hp].
Qed.

Lemma exercise_details_Some (r : WorkoutExerciseRow) (e : ExerciseDetails.t) :
  exercise_details r = Some e ->
  ExerciseDetails.orderIndex e = WorkoutExercise.orderIndex (we_row r)
  /\ ExerciseDetails.sets e = map set_details (we_sets r).
Proof.
  unfold exercise_details. destruct (we_exercise r); [|discriminate].
  intros [= <-]. split; reflexivity.
Qed.

Lemma workout_details_Some (r : WorkoutRow) (w : WorkoutWithDetails.t) :
  workout_details r = Some w ->
  WorkoutWithDetails.id w = Workout.id (w_row r)
  /\ WorkoutWithDetails.date w = Workout.date (w_row r)
  /\ mapM exercise_details (w_workoutExercises r) = Some (WorkoutWithDetails.exercises w).
Proof.
  unfold workout_details.
  destruct (mapM exercise_details (w_workoutExercises r)); [|discriminate].
  intros [= <-]. repeat split; reflexivity.
Qed.

Lemma with_sets_sorted (db : Db.t) (we : WorkoutExercise.t) :
  StronglySorted (fun a b => SetDetails.setNumber a <= SetDetails.setNumber b)
    (map set_details (with_sets db we)).
Proof. apply StronglySorted_map. cbn. apply orderBy_asc_sorted. Qed.

Lemma with_workoutExercises_sorted (db : Db.t) (w : Workout.t) :
  StronglySorted
    (fun a b => WorkoutExercise.orderIndex (we_row a) <= WorkoutExercise.orderIndex (we_row b))
    (with_workoutExercises db w).
Proof. apply StronglySorted_map. cbn. apply orderBy_asc_sorted. Qed.

Lemma findMany_sorted (db : Db.t) (userId : jsstring) (startOfDay endOfDay : Date) :
  StronglySorted (fun a b => Workout.date (w_row b) <= Workout.date (w_row a))
    (findMany db userId startOfDay endOfDay).
Proof. apply StronglySorted_map. cbn. apply orderBy_desc_sorted. Qed.

(** The exercises of one fetched workout are in order, and so are the sets
    of each. *)
Lemma exercises_sorted (db : Db.t) (w : Workout.t) (exs : list ExerciseDetails.t) :
  mapM exercise_details (with_workoutExercises db w) = Some exs ->
  StronglySorted
    (fun a b => ExerciseDetails.orderIndex a <= ExerciseDetails.orderIndex b) exs
  /\ Forall (fun e =>
       StronglySorted
         (fun a b => SetDetails.setNumber a <= SetDetails.setNumber b)
         (ExerciseDetails.sets e)) exs.
Proof.
  intros Hm. apply mapM_Some in Hm. split.
  - eapply StronglySorted_Forall2; [|exact Hm|apply with_workoutExercises_sorted].
    cbn. intros a a' b b' Hb Hb' Hle.
    apply exercise_details_Some in Hb as [-> _].
    apply exercise_details_Some in Hb' as [-> _]. exact Hle.
  - eapply Forall_impl; [exact (Forall2_source _ _ _ Hm)|].
    cbn. intros e (r & Hr & He).
    apply exercise_details_Some in He as [_ ->].
    unfold with_workoutExercises in Hr. apply in_map_iff in Hr as (we & <- & _).
    cbn. apply with_sets_sorted.
Qed.

(** On a store that keeps its foreign key, the transformation of
    [getWorkoutsByDate] never reads a missing exercise. *)
Lemma getWorkoutsByDate_returns (LocalTZA : Z -> bool -> Z) (db : Db.t)
    (userId : jsstring) (date : Date) :
  Db.exercise_fkey db ->
  is_Some (getWorkoutsByDate LocalTZA db userId date).
Proof.
  intros Hfk. unfold getWorkoutsByDate. apply mapM_is_Some.
  apply List.Forall_forall. intros r Hr. cbn.
  unfold findMany in Hr. apply in_map_iff in Hr as (w & <- & _).
  unfold workout_details. cbn.
  assert (Hex : is_Some (mapM exercise_details (with_workoutExercises db w))).
  { apply mapM_is_Some, List.Forall_forall. intros r Hr. cbn.
    unfold with_workoutExercises in Hr. apply in_map_iff in Hr as (we & <- & Hwe).
    apply orderBy_In, filter_In in Hwe as [Hwe _].
    unfold exercise_details, with_exercise. cbn.
    destruct (List.find _ _) eqn:Hfind; [eauto|].
    destruct (Hfk we Hwe) as (e & He & Hid).
    apply (find_none _ _ Hfind) in He. rewrite Hid, Z.eqb_refl in He. discriminate. }
  destruct Hex as [exs ->]. eauto.
Qed.

(** C4 (as the code has it): on a store that keeps its foreign key
    [getWorkoutsByDate] returns a result in which the workouts are in
    descending order of date, the exercises of each workout in ascending
    order of [orderIndex], and the sets of each exercise in ascending order
    of [setNumber]. The order among workouts of the same date is the
    store's. *)
Theorem getWorkoutsByDate_ordering (LocalTZA : Z -> bool -> Z) (db : Db.t)
    (userId : jsstring) (date : Date) :
  Db.exercise_fkey db ->
  exists result,
    getWorkoutsByDate LocalTZA db userId date = Some result
    /\ StronglySorted
         (fun a b => WorkoutWithDetails.date b <= WorkoutWithDetails.date a) result
    /\ Forall (fun w =>
         StronglySorted
           (fun a b => ExerciseDetails.orderIndex a <= ExerciseDetails.orderIndex b)
           (WorkoutWithDetails.exercises w)
         /\ Forall (fun e =>
              StronglySorted
                (fun a b => SetDetails.setNumber a <= SetDetails.setNumber b)
                (ExerciseDetails.sets e))
              (WorkoutWithDetails.exercises w)) result.
Proof.
  intros Hfk.
  destruct (getWorkoutsByDate_returns LocalTZA db userId date Hfk) as [result E].
  exists result. split; [exact E|].
  unfold getWorkoutsByDate in E. apply mapM_Some in E. split.
  - eapply StronglySorted_Forall2; [|exact E|apply findMany_sorted].
    cbn. intros a a' b b' Hb Hb' Hle.
    apply workout_details_Some in Hb as (_ & -> & _).
    apply workout_details_Some in Hb' as (_ & -> & _). exact Hle.
  - eapply Forall_impl; [exact (Forall2_source _ _ _ E)|].
    cbn. intros w (r & Hr & Hw).
    apply workout_details_Some in Hw as (_ & _ & Hexs).
    unfold findMany in Hr. apply in_map_iff in Hr as (w0 & <- & _).
    cbn in Hexs. now apply exercises_sorted in Hexs.
Qed.

Lemma fixture_fkey : Db.exercise_fkey Fixtures.db_diary.
Proof.
  intros we Hwe. cbn in Hwe.
  destruct Hwe as [<-|[<-|[<-|[]]]]; cbn; eauto 10.
Defined.

Lemma getWorkoutsByDate_ordering_witness :
  exists result,
    getWorkoutsByDate utc Fixtures.db_diary Fixtures.alice Fixtures.jan15 = Some result
    /\ map (fun w => map ExerciseDetails.orderIndex (WorkoutWithDetails.exercises w))
         result = [[0; 1; 2]]
    /\ map (fun w => map (fun e => map SetDetails.setNumber (ExerciseDetails.sets e))
                       (WorkoutWithDetails.exercises w))
         result = [[[1; 2]; []; []]].
Proof.
  destruct (getWorkoutsByDate_ordering utc Fixtures.db_diary Fixtures.alice
              Fixtures.jan15 fixture_fkey) as (result & E & _).
  exists result. split; [exact E|].
  vm_compute in E. injection E as <-. split; reflexivity.
Defined.

(** C4, as the specification words it, fails: two workouts of one date come
    back in the order the store yields them, here the one with identifier 2
    before the one with identifier 1. *)
Lemma getWorkoutsByDate_ties_not_by_id :
  exists result,
    getWorkoutsByDate utc Fixtures.db_two_on_a_day Fixtures.alice Fixtures.jan15
    = Some result
    /\ map WorkoutWithDetails.id result = [2; 1]
    /\ map WorkoutWithDetails.date result = [Fixtures.jan15; Fixtures.jan15]
    /\ ~ StronglySorted Spec.date_desc_then_id result.
Proof.
  eexists. split; [vm_compute; reflexivity|].
  split; [reflexivity|]. split; [reflexivity|].
  intros Hs. inversion Hs as [|? ? _ Hall]; subst.
  inversion Hall as [|? ? Hhead _]; subst.
  unfold Spec.date_desc_then_id in Hhead. cbn in Hhead. lia.
Qed.

(** C2: the workout dated 23:59:59.999 of 15 January (host in UTC), as
    [createWorkout] stores it when given that date, is a workout of the user
    on that day as the specification counts days, and [getWorkoutsByDate]
    does not return it: the end of day the source computes is that very
    millisecond, and the comparison with it is strict. *)
Theorem getWorkoutsByDate_drops_last_millisecond :
  createWorkout Fixtures.Date_parse_sample (Some Fixtures.alice)
    1736985599999 1736985599999 Fixtures.db_empty
    (Fixtures.form "Late session" "2025-01-15T23:59:59.999Z" None)
  = (Success (Fixtures.workout 1 Fixtures.alice "Late session" 1736985599999),
     Fixtures.db_late_workout)
  /\ In (Fixtures.workout 1 Fixtures.alice "Late session" 1736985599999)
       (Db.workouts Fixtures.db_late_workout)
  /\ Spec.workout_of_user_on_day utc Fixtures.alice Fixtures.jan15
       (Fixtures.workout 1 Fixtures.alice "Late session" 1736985599999)
  /\ setHours utc Fixtures.jan15 23 59 59 999 = 1736985599999
  /\ getWorkoutsByDate utc Fixtures.db_late_workout Fixtures.alice Fixtures.jan15
     = Some [].
Proof.
  split; [reflexivity|]. split; [now left|]. split.
  - split; [reflexivity|]. vm_compute. split; [discriminate|reflexivity].
  - split; reflexivity.
Qed.

(** ** What the day filter selects *)

Lemma insert_sorted_Permutation {A} (leb : A -> A -> bool) (x : A) (l : list A) :
  Permutation (Query.insert_sorted leb x l) (x :: l).
Proof.
  induction l as [|a l IH]; cbn; [reflexivity|].
  destruct (leb x a); [reflexivity|].
  rewrite IH. apply perm_swap.
Qed.

Lemma orderBy_Permutation {A} (leb : A -> A -> bool) (l : list A) :
  Permutation (Query.orderBy leb l) l.
Proof.
  induction l as [|a l IH]; cbn; [reflexivity|].
  rewrite insert_sorted_Permutation. now constructor.
Qed.

(** Rows that are in order already stay as the store yields them. *)
Lemma orderBy_of_sorted {A} (leb : A -> A -> bool) (l : list A) :
  StronglySorted (fun a b => leb a b = true) l -> Query.orderBy leb l = l.
Proof.
  induction 1 as [|a l Hs IH Hall]; cbn; [reflexivity|].
  rewrite IH. destruct Hall as [|b l Hab _]; cbn; [reflexivity|].
  now rewrite Hab.
Qed.

Lemma where_user_and_day_true (userId : jsstring) (startOfDay endOfDay : Date)
    (w : Workout.t) :
  where_user_and_day userId startOfDay endOfDay w = true <->
  Workout.userId w = userId /\ startOfDay <= Workout.date w < endOfDay.
Proof.
  unfold where_user_and_day.
  rewrite !andb_true_iff, bool_decide_eq_true, Z.leb_le, Z.ltb_lt. tauto.
Qed.

Lemma startOfDay_is_local_midnight (LocalTZA : Z -> bool -> Z) (date : Date) :
  setHours LocalTZA date 0 0 0 0 = Spec.startOfLocalDay LocalTZA date.
Proof. reflexivity. Qed.

(** On a host whose offset from UTC is fixed, the end of day the source
    computes is one millisecond before the next local midnight. *)
Lemma endOfDay_is_last_millisecond (offset : Z) (date : Date) :
  setHours (fun _ _ => offset) date 23 59 59 999
  = Spec.startOfNextLocalDay (fun _ _ => offset) date - 1.
Proof.
  unfold setHours, Spec.startOfNextLocalDay, UTC, MakeDate, MakeTime,
    msPerDay, msPerHour, msPerMinute, msPerSecond.
  lia.
Qed.

(** X1: on a host with a fixed offset from UTC, the [where] clause of
    [getWorkoutsByDate] holds of exactly the workouts of the given user whose
    date is at or after the local midnight of the given day and more than
    one millisecond before the next local midnight. *)
Theorem getWorkoutsByDate_where_fixed_offset (offset : Z) (userId : jsstring)
    (date : Date) (w : Workout.t) :
  where_user_and_day userId
    (setHours (fun _ _ => offset) date 0 0 0 0)
    (setHours (fun _ _ => offset) date 23 59 59 999) w = true
  <-> Workout.userId w = userId
      /\ Spec.startOfLocalDay (fun _ _ => offset) date <= Workout.date w
         < Spec.startOfNextLocalDay (fun _ _ => offset) date - 1.
Proof.
  rewrite where_user_and_day_true, endOfDay_is_last_millisecond,
    startOfDay_is_local_midnight.
  reflexivity.
Qed.

(** X2: whatever [getWorkoutsByDate] returns is, workout by workout, a
    listing of the stored workouts that pass its [where] clause, each taken
    once: every workout returned is one of the given user, dated from the
    local midnight of the given day up to, and without, 23:59:59.999 of that
    day, and carries the stored id, name, date and duration. *)
Theorem getWorkoutsByDate_selection (LocalTZA : Z -> bool -> Z) (db : Db.t)
    (userId : jsstring) (date : Date) (result : list WorkoutWithDetails.t) :
  getWorkoutsByDate LocalTZA db userId date = Some result ->
  exists rows,
    Permutation rows
      (List.filter
         (where_user_and_day userId (setHours LocalTZA date 0 0 0 0)
            (setHours LocalTZA date 23 59 59 999))
         (Db.workouts db))
    /\ Forall (fun w =>
         Workout.userId w = userId
         /\ Spec.startOfLocalDay LocalTZA date <= Workout.date w
            < setHours LocalTZA date 23 59 59 999) rows
    /\ Forall2 (fun w d =>
         WorkoutWithDetails.id d = Workout.id w
         /\ WorkoutWithDetails.name d = Workout.name w
         /\ WorkoutWithDetails.date d = Workout.date w
         /\ WorkoutWithDetails.durationMinutes d = Workout.durationMinutes w)
         rows result.
Proof.
  intros E. unfold getWorkoutsByDate, findMany in E.
  set (selected := List.filter _ (Db.workouts db)) in E.
  exists (Query.orderBy (Query.desc Workout.date) selected).
  split; [apply orderBy_Permutation|]. split.
  - apply List.Forall_forall. intros w Hw.
    apply orderBy_In in Hw. apply filter_In in Hw as [_ Hw].
    now apply where_user_and_day_true in Hw.
  - apply mapM_Some in E. revert E.
    generalize (Query.orderBy (Query.desc Workout.date) selected).
    intros rows. revert result.
    induction rows as [|w rows IH]; intros result E; cbn in E.
    + inversion E. constructor.
    + inversion E as [|? d ? ? Hd Hrest]; subst. constructor; [|now apply IH].
      unfold workout_details in Hd. cbn in Hd.
      destruct (mapM exercise_details (with_workoutExercises db w)); [|discriminate].
      injection Hd as <-. cbn. auto.
Qed.

Lemma getWorkoutsByDate_selection_witness :
  exists rows,
    Permutation rows [Fixtures.workout 1 Fixtures.alice "Push day" Fixtures.jan15]
    /\ Forall (fun w => Workout.userId w = Fixtures.alice) rows.
Proof.
  destruct (getWorkoutsByDate_selection utc Fixtures.db_diary Fixtures.alice
              Fixtures.jan15 _ ltac:(vm_compute; reflexivity))
    as (rows & Hperm & Hall & _).
  exists rows. split; [exact Hperm|].
  eapply Forall_impl; [exact Hall|]. cbn. tauto.
Defined.

(** X3: the unit written by [setWeightUnitPreferenceCookie] is the unit
    [getWeightUnitPreference] reads back. *)
Theorem preference_set_then_get (unit : WeightUnit) (cookieStore : cookies) :
  getWeightUnitPreference (setWeightUnitPreferenceCookie unit cookieStore) = unit.
Proof.
  unfold getWeightUnitPreference, setWeightUnitPreferenceCookie.
  rewrite lookup_insert_eq. destruct unit; reflexivity.
Qed.

(* ===================================================================== *)
(** * Further statements *)
(* ===================================================================== *)

Import JSText Dashboard EditPage.

(** ** Integers written and read back *)

Lemma mathInt_snoc (ds : list Z) (d : Z) : mathInt (ds ++ [d]) = 10 * mathInt ds + d.
Proof. unfold mathInt. now rewrite fold_left_app. Qed.

Lemma digitsOf_spec (fuel : nat) (n : Z) :
  0 <= n < 2 ^ Z.of_nat (S fuel) ->
  mathInt (digitsOf (S fuel) n) = n
  /\ Forall (fun d => 0 <= d <= 9) (digitsOf (S fuel) n)
  /\ digitsOf (S fuel) n <> [].
Proof.
  revert n. induction fuel as [|fuel IH]; intros n Hn.
  - assert (n < 10) by (change (2 ^ Z.of_nat 1) with 2 in Hn; lia).
    cbn [digitsOf]. destruct (Z.ltb_spec n 10); [|lia].
    split; [cbn; lia|]. split; [repeat constructor; lia | discriminate].
  - remember (S fuel) as fuel' eqn:Efuel. cbn [digitsOf].
    destruct (Z.ltb_spec n 10) as [Hsmall|Hbig].
    + split; [cbn; lia|]. split; [repeat constructor; lia | discriminate].
    + assert (Hq : 0 <= n / 10 < 2 ^ Z.of_nat fuel').
      { split; [apply Z.div_pos; lia|].
        rewrite Nat2Z.inj_succ, Z.pow_succ_r in Hn by lia.
        apply Z.div_lt_upper_bound; lia. }
      subst fuel'. destruct (IH _ Hq) as (Hval & Hdigits & Hne).
      pose proof (Z.mod_pos_bound n 10 ltac:(lia)) as Hr.
      split; [|split].
      * rewrite mathInt_snoc, Hval. pose proof (Z.div_mod n 10 ltac:(lia)). lia.
      * apply Forall_app. split; [exact Hdigits|]. repeat constructor; lia.
      * intros E. apply app_eq_nil in E as [_ E]. discriminate.
Qed.

Lemma digit_cases (d : Z) :
  0 <= d <= 9 ->
  d = 0 \/ d = 1 \/ d = 2 \/ d = 3 \/ d = 4 \/ d = 5 \/ d = 6 \/ d = 7 \/ d = 8 \/ d = 9.
Proof. lia. Qed.

Lemma digitValue_digitChar (d : Z) : 0 <= d <= 9 -> digitValue (digitChar d) = Some d.
Proof.
  intros Hd. apply digit_cases in Hd.
  repeat (destruct Hd as [->|Hd]; [reflexivity|]). subst. reflexivity.
Qed.

Lemma digitChar_plain (d : Z) :
  0 <= d <= 9 ->
  isWhiteSpace (digitChar d) = false
  /\ (digitChar d =? 45)%N = false /\ (digitChar d =? 43)%N = false.
Proof.
  intros Hd. apply digit_cases in Hd.
  repeat (destruct Hd as [->|Hd]; [repeat split; reflexivity|]).
  subst. repeat split; reflexivity.
Qed.

Lemma digitsPrefix_digits (ds : list Z) :
  Forall (fun d => 0 <= d <= 9) ds -> digitsPrefix (map digitChar ds) = ds.
Proof.
  induction 1 as [|d ds Hd _ IH]; cbn; [reflexivity|].
  now rewrite digitValue_digitChar, IH.
Qed.

(** [parseInt] reads the digits of a non-negative integer as that integer. *)
Lemma parseInt10_digits (ds : list Z) :
  Forall (fun d => 0 <= d <= 9) ds -> ds <> [] ->
  parseInt10 (map digitChar ds) = Some (mathInt ds)
  /\ parseInt10 (45%N :: map digitChar ds) = Some (- mathInt ds).
Proof.
  intros Hds Hne. pose proof (digitsPrefix_digits ds Hds) as Hprefix.
  destruct ds as [|d ds]; [contradiction|].
  inversion Hds as [|? ? Hd _]; subst.
  destruct (digitChar_plain d Hd) as (Hws & Hminus & Hplus).
  split.
  - unfold parseInt10. cbn [map trimStart]. rewrite Hws, Hminus, Hplus.
    cbn [map] in Hprefix. rewrite Hprefix. f_equal; lia.
  - unfold parseInt10. cbn [trimStart]. change (isWhiteSpace 45) with false.
    cbn iota. change (45 =? 45)%N with true. cbn iota.
    rewrite Hprefix. f_equal; lia.
Qed.

Lemma intToString_digits (n : Z) :
  0 <= n ->
  mathInt (digitsOf (S (Z.to_nat (Z.log2 n))) n) = n
  /\ Forall (fun d => 0 <= d <= 9) (digitsOf (S (Z.to_nat (Z.log2 n))) n)
  /\ digitsOf (S (Z.to_nat (Z.log2 n))) n <> [].
Proof.
  intros Hn. apply digitsOf_spec. split; [exact Hn|].
  rewrite Nat2Z.inj_succ, Z2Nat.id by apply Z.log2_nonneg.
  destruct (Z.eq_dec n 0) as [->|Hpos]; [reflexivity|].
  apply Z.log2_spec. lia.
Qed.

(** [parseInt(String(n), 10)] is [n], for every integer. *)
Lemma parseInt10_intToString (n : Z) : parseInt10 (intToString n) = Some n.
Proof.
  unfold intToString. destruct (Z.ltb_spec n 0) as [Hneg|Hpos].
  - destruct (intToString_digits (- n) ltac:(lia)) as (Hval & Hds & Hne).
    destruct (parseInt10_digits _ Hds Hne) as [_ ->]. f_equal; lia.
  - destruct (intToString_digits n Hpos) as (Hval & Hds & Hne).
    destruct (parseInt10_digits _ Hds Hne) as [-> _]. now f_equal.
Qed.

Example intToString_samples :
  intToString 0 = str "0" /\ intToString 7 = str "7" /\ intToString 60 = str "60"
  /\ intToString 2025 = str "2025" /\ intToString (-5) = str "-5"
  /\ intToString 1736899200000 = str "1736899200000".
Proof. repeat split. Qed.

(** ** The edit form and the edit page *)

Lemma durationDefaultValue_transform (durationMinutes : option Z) :
  durationMinutes_transform (Some (durationDefaultValue durationMinutes)) = durationMinutes.
Proof.
  rewrite durationMinutes_transform_Some.
  destruct durationMinutes as [n|]; cbn; [apply parseInt10_intToString|reflexivity].
Qed.

(** X4: a duration the edit form shows and the user leaves alone comes back
    unchanged: when the duration field submitted is the default value the
    form computes from the stored duration (its decimal text, or the empty
    string for null), and the schema of [updateWorkout] accepts the form,
    the validated duration is the stored one, null included. *)
Theorem edit_form_duration_round_trip (Date_parse : jsstring -> option Z)
    (stored : option Z) (params : WorkoutForm) (data : ValidWorkout) :
  Actions.durationMinutes params = Some (durationDefaultValue stored) ->
  updateWorkoutSchema Date_parse params = inl data ->
  valid_durationMinutes data = stored.
Proof.
  intros Hfield Hvalid. apply safeParse_inl in Hvalid as (_ & _ & ->).
  cbn. rewrite Hfield. apply durationDefaultValue_transform.
Qed.

Lemma edit_form_duration_round_trip_witness :
  Actions.durationMinutes
    {| Actions.name := str "Leg day"; Actions.date := str "2025-01-15";
       Actions.durationMinutes := Some (str "75") |}
  = Some (durationDefaultValue (Some 75))
  /\ valid_durationMinutes
       {| valid_name := str "Leg day"; valid_date := str "2025-01-15";
          valid_durationMinutes := Some 75 |} = Some 75.
Proof.
  split; [reflexivity|].
  apply (edit_form_duration_round_trip Fixtures.Date_parse_sample (Some 75)
           {| Actions.name := str "Leg day"; Actions.date := str "2025-01-15";
              Actions.durationMinutes := Some (str "75") |});
    reflexivity.
Defined.

(** X5: [formatDuration] shows 'N/A' for a missing or zero duration. A
    positive duration is split into hours and minutes that add up to it,
    with the minutes below 60, and the hours are shown exactly when the
    duration is an hour or more. Of a negative duration only the remainder
    by 60 is shown, the hours are dropped. *)
Theorem formatDuration_parts (minutes : Z) :
  formatDuration None = str "N/A"
  /\ formatDuration (Some 0) = str "N/A"
  /\ (0 < minutes ->
      exists hours mins,
        minutes = 60 * hours + mins /\ 0 <= hours /\ 0 <= mins < 60
        /\ formatDuration (Some minutes)
           = if 60 <=? minutes
             then intToString hours ++ str "h " ++ intToString mins ++ str "m"
             else intToString mins ++ str "m")
  /\ (minutes < 0 ->
      - 60 < Z.rem minutes 60 <= 0
      /\ formatDuration (Some minutes) = intToString (Z.rem minutes 60) ++ str "m").
Proof.
  split; [reflexivity|]. split; [reflexivity|]. split.
  - intros Hpos. exists (minutes / 60), (minutes mod 60).
    pose proof (Z.div_mod minutes 60 ltac:(lia)) as Hdm.
    pose proof (Z.mod_pos_bound minutes 60 ltac:(lia)) as Hr.
    assert (Hh : 0 <= minutes / 60) by (apply Z.div_pos; lia).
    split; [lia|]. split; [exact Hh|]. split; [exact Hr|].
    unfold formatDuration, or_null.
    destruct (Z.eqb_spec minutes 0) as [|_]; [lia|].
    rewrite Z.rem_mod_nonneg by lia.
    destruct (Z.leb_spec 60 minutes) as [Hbig|Hsmall].
    + destruct (Z.ltb_spec 0 (minutes / 60)) as [|Hzero]; [reflexivity|].
      assert (minutes / 60 = 0) by lia. lia.
    + rewrite Z.div_small by lia. reflexivity.
  - intros Hneg.
    pose proof (Z.rem_bound_pos_neg minutes 60 ltac:(lia) ltac:(lia)) as Hrem.
    split; [lia|].
    unfold formatDuration, or_null.
    destruct (Z.eqb_spec minutes 0) as [|_]; [lia|].
    assert (minutes / 60 < 0) by (apply Z.div_lt_upper_bound; lia).
    destruct (Z.ltb_spec 0 (minutes / 60)); [lia|reflexivity].
Qed.

Lemma formatDuration_parts_witness :
  formatDuration (Some 135) = str "2h 15m"
  /\ formatDuration (Some 45) = str "45m"
  /\ formatDuration (Some (-90)) = str "-30m".
Proof.
  destruct (formatDuration_parts 135) as (_ & _ & Hpos & _).
  destruct (formatDuration_parts 45) as (_ & _ & Hsmall & _).
  destruct (formatDuration_parts (-90)) as (_ & _ & _ & Hneg).
  split; [|split].
  - destruct (Hpos ltac:(lia)) as (h & m & E & Hh & Hm & ->).
    assert (h = 2 /\ m = 15) as [-> ->] by lia. reflexivity.
  - destruct (Hsmall ltac:(lia)) as (h & m & E & Hh & Hm & ->).
    assert (h = 0 /\ m = 45) as [-> ->] by lia. reflexivity.
  - destruct (Hneg ltac:(lia)) as [_ ->]. reflexivity.
Defined.

Lemma formatDuration_ends_with_m (minutes : Z) :
  minutes <> 0 -> last (formatDuration (Some minutes)) = Some 109%N.
Proof.
  intros Hnz. unfold formatDuration, or_null.
  destruct (Z.eqb_spec minutes 0); [contradiction|].
  destruct (0 <? minutes / 60); rewrite ?app_assoc; apply last_snoc.
Qed.

(** X6: the dashboard never shows the 'N/A' of [formatDuration]: for a null
    duration the page shows nothing, for a zero duration the text "0", and
    for any other duration the clock with a text that ends in "m". *)
Theorem dashboard_never_shows_NA (durationMinutes : option Z) :
  durationElement durationMinutes <> Text (str "N/A")
  /\ durationElement durationMinutes <> ClockAndSpan (str "N/A")
  /\ (durationMinutes = None <-> durationElement durationMinutes = Nothing)
  /\ (durationMinutes = Some 0 <-> durationElement durationMinutes = Text (str "0"))
  /\ forall text, durationElement durationMinutes = ClockAndSpan text ->
       last text = Some 109%N.
Proof.
  unfold durationElement.
  destruct durationMinutes as [n|].
  - destruct (Z.eqb_spec n 0) as [->|Hnz].
    + repeat split; try discriminate; reflexivity.
    + split; [discriminate|]. split.
      { intros [= E]. pose proof (formatDuration_ends_with_m n Hnz) as Hlast.
        rewrite E in Hlast. discriminate. }
      split; [split; discriminate|].
      split; [split; [intros [= ->]; contradiction|discriminate]|].
      intros text [= <-]. now apply formatDuration_ends_with_m.
  - repeat split; try discriminate.
Qed.

(** X7: [EditWorkoutPage] renders a workout only for an authenticated
    request whose URL segment [parseInt] reads as an integer, and what it
    renders is what [getWorkoutById] yields for that integer and the
    authenticated user. An unauthenticated request is sent to /sign-in
    whatever the segment; an authenticated one is sent to /dashboard when
    the segment has no integer to read or the lookup yields nothing. *)
Theorem EditWorkoutPage_outcomes (getWorkoutById : Z -> jsstring -> option Workout.t)
    (auth : option jsstring) (workoutId : jsstring) :
  (forall w, EditWorkoutPage getWorkoutById auth workoutId = Render w ->
     exists userId n,
       auth = Some userId /\ userId <> []
       /\ parseInt10 workoutId = Some n /\ getWorkoutById n userId = Some w)
  /\ (falsy_string auth = true ->
      EditWorkoutPage getWorkoutById auth workoutId = Redirect (str "/sign-in"))
  /\ (forall userId, auth = Some userId -> userId <> [] ->
      EditWorkoutPage getWorkoutById auth workoutId
      = match parseInt10 workoutId with
        | None => Redirect (str "/dashboard")
        | Some n =>
            match getWorkoutById n userId with
            | None => Redirect (str "/dashboard")
            | Some w => Render w
            end
        end).
Proof.
  unfold EditWorkoutPage. split; [|split].
  - intros w. destruct auth as [[|c u]|]; cbn; try discriminate.
    destruct (parseInt10 workoutId) as [n|]; [|discriminate].
    destruct (getWorkoutById n (c :: u)) as [w'|] eqn:E; [|discriminate].
    intros [= ->]. exists (c :: u), n. repeat split; auto; discriminate.
  - destruct auth as [[|c u]|]; cbn; try discriminate; reflexivity.
  - intros userId -> Hne. destruct userId as [|c u]; [contradiction|]. reflexivity.
Qed.

Lemma EditWorkoutPage_outcomes_witness :
  EditWorkoutPage (getWorkoutById Fixtures.db_diary) (Some Fixtures.alice) (str "1")
  = Render (Fixtures.workout 1 Fixtures.alice "Push day" Fixtures.jan15)
  /\ EditWorkoutPage (getWorkoutById Fixtures.db_diary) (Some Fixtures.alice) (str "2")
     = Redirect (str "/dashboard")
  /\ EditWorkoutPage (getWorkoutById Fixtures.db_diary) None (str "1")
     = Redirect (str "/sign-in").
Proof.
  split; [|split].
  - rewrite (proj2 (proj2 (EditWorkoutPage_outcomes (getWorkoutById Fixtures.db_diary)
                (Some Fixtures.alice) (str "1"))) Fixtures.alice eq_refl);
      [reflexivity|discriminate].
  - rewrite (proj2 (proj2 (EditWorkoutPage_outcomes (getWorkoutById Fixtures.db_diary)
                (Some Fixtures.alice) (str "2"))) Fixtures.alice eq_refl);
      [reflexivity|discriminate].
  - apply (EditWorkoutPage_outcomes (getWorkoutById Fixtures.db_diary) None (str "1")).
    reflexivity.
Defined.

(** X8: the edit link of the dashboard opens the workout it names: for an
    authenticated user the page at the segment [String(id)] is the lookup
    of [id]. The segment is read as [parseInt] reads it, so two segments
    with the same reading ("12" and "12abc", say) give the same page. *)
Theorem edit_link_opens_workout (getWorkoutById : Z -> jsstring -> option Workout.t)
    (userId : jsstring) (id : Z) (segment segment' : jsstring) :
  userId <> [] ->
  parseInt10 segment = parseInt10 segment' ->
  EditWorkoutPage getWorkoutById (Some userId) (intToString id)
  = match getWorkoutById id userId with
    | None => Redirect (str "/dashboard")
    | Some w => Render w
    end
  /\ EditWorkoutPage getWorkoutById (Some userId) segment
     = EditWorkoutPage getWorkoutById (Some userId) segment'.
Proof.
  intros Hne Hsame. destruct userId as [|c u]; [contradiction|].
  unfold EditWorkoutPage. cbn [falsy_string].
  rewrite parseInt10_intToString, Hsame. split; reflexivity.
Qed.

Lemma edit_link_opens_workout_witness :
  EditWorkoutPage (getWorkoutById Fixtures.db_diary) (Some Fixtures.alice) (str "1abc")
  = EditWorkoutPage (getWorkoutById Fixtures.db_diary) (Some Fixtures.alice) (str " 1").
Proof.
  apply (edit_link_opens_workout (getWorkoutById Fixtures.db_diary) Fixtures.alice 1
           (str "1abc") (str " 1")); [discriminate|reflexivity].
Defined.

(** ** Seeding the exercise library *)

Lemma conflicts_false (row : Exercise.t) (table : list Exercise.t) :
  Seed.conflicts row table = false <->
  forall e, In e table ->
    Exercise.id e <> Exercise.id row /\ Exercise.name e <> Exercise.name row.
Proof.
  unfold Seed.conflicts. split.
  - intros Hnone e He.
    destruct (Z.eqb_spec (Exercise.id e) (Exercise.id row)) as [Hid|Hid];
      destruct (decide (Exercise.name e = Exercise.name row)) as [Hname|Hname];
      try (split; assumption); exfalso;
      assert (existsb (fun e => (Exercise.id e =? Exercise.id row)
                 || bool_decide (Exercise.name e = Exercise.name row)) table = true)
        as Habs
        by (apply existsb_exists; exists e; split; [exact He|];
            apply orb_true_iff; rewrite Z.eqb_eq, bool_decide_eq_true; tauto);
      congruence.
  - intros Hall. destruct (existsb _ table) eqn:E; [|reflexivity].
    apply existsb_exists in E as (e & He & Hc).
    apply orb_true_iff in Hc. rewrite Z.eqb_eq, bool_decide_eq_true in Hc.
    destruct (Hall e He). tauto.
Qed.

Lemma conflicts_true_name (row : Exercise.t) (seq : Z) (table : list Exercise.t) :
  Invariant.exercises_seq_ahead seq table -> Exercise.id row = seq ->
  Seed.conflicts row table = true ->
  exists e, In e table /\ Exercise.name e = Exercise.name row.
Proof.
  intros Hahead Hid Hc. apply existsb_exists in Hc as (e & He & Hc).
  apply orb_true_iff in Hc. rewrite Z.eqb_eq, bool_decide_eq_true in Hc.
  destruct Hc as [Hc|Hc]; [|eauto].
  specialize (Hahead e He). lia.
Qed.

(** The statement only appends rows, and takes one value of the sequence for
    each row given. *)
Lemma insert_extends (now : Date) (values : list Seed.NewExercise) (seq : Z)
    (table : list Exercise.t) :
  exists added,
    fst (Seed.insert_onConflictDoNothing now values seq table) = table ++ added
    /\ snd (Seed.insert_onConflictDoNothing now values seq table)
       = seq + Z.of_nat (length values)
    /\ forall e, In e added -> seq <= Exercise.id e < seq + Z.of_nat (length values).
Proof.
  revert seq table. induction values as [|v rest IH]; intros seq table.
  - exists []. cbn. rewrite app_nil_r.
    split; [reflexivity|]. split; [lia|]. intros e [].
  - cbn [Seed.insert_onConflictDoNothing].
    match goal with |- context [if ?c then _ else _] => destruct c end.
    + destruct (IH (seq + 1) table) as (added & -> & -> & Hids).
      exists added. cbn [length].
      split; [reflexivity|]. split; [lia|].
      intros e He. apply Hids in He. lia.
    + match goal with |- context [table ++ [?r]] => set (row := r) end.
      destruct (IH (seq + 1) (table ++ [row])) as (added & -> & -> & Hids).
      exists (row :: added). rewrite <- app_assoc. cbn [app length].
      split; [reflexivity|]. split; [lia|].
      intros e [<-|He]; [cbn; lia|]. apply Hids in He. lia.
Qed.

Lemma NoDup_map_snoc {A B} (f : A -> B) (l : list A) (x : A) :
  NoDup (map f l) -> (forall y, In y l -> f y <> f x) -> NoDup (map f (l ++ [x])).
Proof.
  intros Hnd Hfresh. rewrite map_app. cbn. apply NoDup_app.
  split; [exact Hnd|]. split; [|apply NoDup_singleton].
  intros b Hb Hbx. apply list_elem_of_In in Hb. apply in_map_iff in Hb as (y & <- & Hy).
  apply list_elem_of_In in Hbx. destruct Hbx as [Hbx|[]].
  apply (Hfresh y Hy). congruence.
Qed.

Lemma insert_keeps_unique (now : Date) (values : list Seed.NewExercise) (seq : Z)
    (table : list Exercise.t) :
  NoDup (map Exercise.id table) -> NoDup (map Exercise.name table) ->
  NoDup (map Exercise.id (fst (Seed.insert_onConflictDoNothing now values seq table)))
  /\ NoDup (map Exercise.name (fst (Seed.insert_onConflictDoNothing now values seq table))).
Proof.
  revert seq table. induction values as [|v rest IH]; intros seq table Hid Hname.
  - cbn. auto.
  - cbn [Seed.insert_onConflictDoNothing].
    match goal with |- context [if ?c then _ else _] => destruct c eqn:Hc end.
    + now apply IH.
    + rewrite conflicts_false in Hc.
      apply IH; apply NoDup_map_snoc; auto; intros y Hy; now apply Hc.
Qed.

Lemma insert_seq_ahead (now : Date) (values : list Seed.NewExercise) (seq : Z)
    (table : list Exercise.t) :
  Invariant.exercises_seq_ahead seq table ->
  Invariant.exercises_seq_ahead
    (snd (Seed.insert_onConflictDoNothing now values seq table))
    (fst (Seed.insert_onConflictDoNothing now values seq table)).
Proof.
  intros Hahead.
  destruct (insert_extends now values seq table) as (added & -> & -> & Hids).
  intros e He. apply in_app_iff in He as [He|He].
  - specialize (Hahead e He). lia.
  - apply Hids in He. lia.
Qed.

Lemma insert_installs (now : Date) (values : list Seed.NewExercise) (seq : Z)
    (table : list Exercise.t) :
  Invariant.exercises_seq_ahead seq table ->
  forall v, In v values ->
    exists e, In e (fst (Seed.insert_onConflictDoNothing now values seq table))
              /\ Exercise.name e = Seed.name v.
Proof.
  revert seq table. induction values as [|v0 rest IH]; intros seq table Hahead v Hv.
  - destruct Hv.
  - cbn [Seed.insert_onConflictDoNothing].
    match goal with |- context [if Seed.conflicts ?r table then _ else _] =>
      set (row := r) end.
    assert (Hahead' : Invariant.exercises_seq_ahead (seq + 1)
                        (if Seed.conflicts row table then table else table ++ [row])).
    { intros e He. destruct (Seed.conflicts row table).
      - specialize (Hahead e He). lia.
      - apply in_app_iff in He as [He|[<-|[]]]; [specialize (Hahead e He)|cbn]; lia. }
    destruct Hv as [<-|Hv]; [|now apply IH].
    assert (Hnow : exists e,
               In e (if Seed.conflicts row table then table else table ++ [row])
               /\ Exercise.name e = Seed.name v0).
    { destruct (Seed.conflicts row table) eqn:Hc.
      - apply (conflicts_true_name row seq table Hahead eq_refl Hc).
      - exists row. split; [apply in_app_iff; right; now left|reflexivity]. }
    destruct Hnow as (e & He & Hname).
    destruct (insert_extends now rest (seq + 1)
                (if Seed.conflicts row table then table else table ++ [row]))
      as (added & -> & _).
    exists e. split; [apply in_app_iff; now left|exact Hname].
Qed.

Lemma insert_nothing_new (now : Date) (values : list Seed.NewExercise) (seq : Z)
    (table : list Exercise.t) :
  (forall v, In v values -> exists e, In e table /\ Exercise.name e = Seed.name v) ->
  fst (Seed.insert_onConflictDoNothing now values seq table) = table.
Proof.
  revert seq. induction values as [|v rest IH]; intros seq Hall; [reflexivity|].
  cbn [Seed.insert_onConflictDoNothing].
  match goal with |- context [if ?c then _ else _] => destruct c eqn:Hc end.
  - apply IH. intros v' Hv'. apply Hall. now right.
  - rewrite conflicts_false in Hc.
    destruct (Hall v ltac:(now left)) as (e & He & Hname).
    destruct (Hc e He) as [_ Hne]. cbn in Hne. contradiction.
Qed.

(** X9: [seed] keeps the unique constraints of the exercise table and its
    rows: when ids and names are unique before, they are unique after, the
    rows that were there come first and unchanged, and the sequence advances
    by the ten values the statement takes. *)
Theorem seed_keeps_table (now : Date) (exercises_id_seq : Z) (table : list Exercise.t) :
  NoDup (map Exercise.id table) ->
  NoDup (map Exercise.name table) ->
  NoDup (map Exercise.id (fst (Seed.seed now exercises_id_seq table)))
  /\ NoDup (map Exercise.name (fst (Seed.seed now exercises_id_seq table)))
  /\ (exists added, fst (Seed.seed now exercises_id_seq table) = table ++ added)
  /\ snd (Seed.seed now exercises_id_seq table) = exercises_id_seq + 10.
Proof.
  intros Hid Hname. unfold Seed.seed.
  destruct (insert_keeps_unique now Seed.initialExercises exercises_id_seq table Hid Hname)
    as [Hid' Hname'].
  destruct (insert_extends now Seed.initialExercises exercises_id_seq table)
    as (added & Hfst & Hsnd & _).
  repeat split; [exact Hid'|exact Hname'|eauto|exact Hsnd].
Qed.

Lemma seed_keeps_table_witness :
  Exercise.id <$> fst (Seed.seed 0 4 Fixtures.catalog) = [1; 2; 3; 7; 8; 9; 10; 11; 12; 13]
  /\ snd (Seed.seed 0 4 Fixtures.catalog) = 14
  /\ NoDup (map Exercise.name (fst (Seed.seed 0 4 Fixtures.catalog))).
Proof.
  split; [reflexivity|]. split; [reflexivity|].
  apply (seed_keeps_table 0 4 Fixtures.catalog);
    apply (bool_decide_unpack _); vm_compute; exact I.
Defined.

(** X10: when the id sequence is ahead of every id in the table, after
    [seed] every exercise of the library is in the table under its name. *)
Theorem seed_installs_library (now : Date) (exercises_id_seq : Z)
    (table : list Exercise.t) (v : Seed.NewExercise) :
  Invariant.exercises_seq_ahead exercises_id_seq table ->
  In v Seed.initialExercises ->
  exists e, In e (fst (Seed.seed now exercises_id_seq table))
            /\ Exercise.name e = Seed.name v.
Proof. intros Hahead Hv. now apply insert_installs. Qed.

Lemma catalog_seq_ahead : Invariant.exercises_seq_ahead 4 Fixtures.catalog.
Proof. intros e [<-|[<-|[<-|[]]]]; cbn; lia. Defined.

Lemma seed_installs_library_witness :
  exists e, In e (fst (Seed.seed 0 4 Fixtures.catalog))
            /\ Exercise.name e = str "Leg Press".
Proof.
  apply (seed_installs_library 0 4 Fixtures.catalog
           (Seed.newExercise "Leg Press" "Legs" "Machine leg press") catalog_seq_ahead).
  cbn. tauto.
Defined.

(** X11: [seed] is idempotent on the rows: when the id sequence is ahead of
    every id in the table, running [seed] again after [seed], at any later
    time, inserts nothing. *)
Theorem seed_idempotent (now now' : Date) (exercises_id_seq : Z)
    (table : list Exercise.t) :
  Invariant.exercises_seq_ahead exercises_id_seq table ->
  fst (Seed.seed now' (snd (Seed.seed now exercises_id_seq table))
         (fst (Seed.seed now exercises_id_seq table)))
  = fst (Seed.seed now exercises_id_seq table).
Proof.
  intros Hahead. unfold Seed.seed at 1. apply insert_nothing_new.
  intros v Hv. now apply insert_installs.
Qed.

Lemma seed_idempotent_witness :
  fst (Seed.seed 5 (snd (Seed.seed 0 4 Fixtures.catalog))
         (fst (Seed.seed 0 4 Fixtures.catalog)))
  = fst (Seed.seed 0 4 Fixtures.catalog).
Proof. apply (seed_idempotent 0 5 4 Fixtures.catalog catalog_seq_ahead). Defined.

(** Without that precondition a second run can insert: a row the first run
    skipped for its id is inserted under a later id. *)
Example seed_not_idempotent_behind_sequence :
  let table := [Fixtures.exercise 5 "Plank" "Core"] in
  length (fst (Seed.seed 0 4 table)) = 10%nat
  /\ length (fst (Seed.seed 0 (snd (Seed.seed 0 4 table)) (fst (Seed.seed 0 4 table))))
     = 11%nat.
Proof. split; reflexivity. Qed.

(** ** The actions: what is rejected, what is written *)

Lemma name_issues_cases (val : jsstring) :
  (length val = 0%nat /\ name_issues val = [str "Workout name is required"])
  \/ ((1 <= length val <= 255)%nat /\ name_issues val = [])
  \/ ((255 < length val)%nat /\ name_issues val = [str "Workout name is too long"]).
Proof.
  unfold name_issues.
  destruct (Nat.ltb_spec (length val) 1), (Nat.ltb_spec 255 (length val));
    first [lia | left; split; [lia|reflexivity]
               | right; left; split; [lia|reflexivity]
               | right; right; split; [lia|reflexivity]].
Qed.

Lemma flatten_field_lookup (field : jsstring) (issues : list jsstring)
    (errors : fieldErrors) (f : jsstring) :
  flatten_field field issues errors !! f
  = if decide (field = f)
    then match issues with [] => errors !! f | _ :: _ => Some issues end
    else errors !! f.
Proof.
  unfold flatten_field. destruct issues as [|i issues]; destruct (decide (field = f));
    subst; try reflexivity.
  - apply lookup_insert_eq.
  - now apply lookup_insert_ne.
Qed.

(** X12: the schema of [createWorkout] and [updateWorkout] accepts a form
    exactly when its name has 1 to 255 code units and [Date.parse] reads its
    date. The errors of a rejected form hold 'Workout name is required' for
    an empty name, 'Workout name is too long' for one above 255, 'Invalid
    date format' for a date [Date.parse] cannot read, and no entry for any
    other field. *)
Theorem workout_form_validation (Date_parse : jsstring -> option Z)
    (params : WorkoutForm) :
  ((exists data, createWorkoutSchema Date_parse params = inl data)
   <-> (1 <= length (Actions.name params) <= 255)%nat
       /\ Date_parse (Actions.date params) <> None)
  /\ forall errors, createWorkoutSchema Date_parse params = inr errors ->
       errors !! str "name"
       = (if (length (Actions.name params) =? 0)%nat
          then Some [str "Workout name is required"]
          else if (255 <? length (Actions.name params))%nat
               then Some [str "Workout name is too long"]
               else None)
       /\ errors !! str "date"
          = match Date_parse (Actions.date params) with
            | None => Some [str "Invalid date format"]
            | Some _ => None
            end
       /\ forall field, field <> str "name" -> field <> str "date" ->
            errors !! field = None.
Proof.
  unfold createWorkoutSchema. split.
  - split.
    + intros [data E]. apply safeParse_inl in E as (Hname & Hdate & _).
      unfold date_issues in Hdate.
      destruct (name_issues_cases (Actions.name params))
        as [[_ E]|[[Hlen _]|[_ E]]]; try (rewrite E in Hname; discriminate).
      split; [exact Hlen|]. destruct (Date_parse (Actions.date params)); discriminate.
    + intros [Hlen Hdate]. unfold safeParse, date_issues.
      destruct (name_issues_cases (Actions.name params))
        as [[Hl _]|[[_ ->]|[Hl _]]]; try lia.
      destruct (Date_parse (Actions.date params)); [eauto|contradiction].
  - intros errors E.
    assert (Herrors : errors = flatten_field (str "name") (name_issues (Actions.name params))
                        (flatten_field (str "date")
                           (date_issues Date_parse (Actions.date params)) ∅)).
    { unfold safeParse in E.
      destruct (name_issues (Actions.name params)),
        (date_issues Date_parse (Actions.date params)); congruence. }
    subst errors. split; [|split].
    + rewrite flatten_field_lookup. rewrite decide_True by reflexivity.
      rewrite flatten_field_lookup. rewrite decide_False by discriminate.
      rewrite lookup_empty.
      destruct (name_issues_cases (Actions.name params))
        as [[Hlen ->]|[[Hlen ->]|[Hlen ->]]];
        destruct (Nat.eqb_spec (length (Actions.name params)) 0);
        destruct (Nat.ltb_spec 255 (length (Actions.name params)));
        first [lia | reflexivity].
    + rewrite flatten_field_lookup. rewrite decide_False by discriminate.
      rewrite flatten_field_lookup. rewrite decide_True by reflexivity.
      rewrite lookup_empty. unfold date_issues.
      destruct (Date_parse (Actions.date params)); reflexivity.
    + intros field Hn Hd.
      rewrite flatten_field_lookup. rewrite decide_False by congruence.
      rewrite flatten_field_lookup. rewrite decide_False by congruence.
      apply lookup_empty.
Qed.

Lemma workout_form_validation_witness :
  (exists data,
     createWorkoutSchema Fixtures.Date_parse_sample
       (Fixtures.form "Leg day" "2025-01-15" None) = inl data)
  /\ exists errors,
       createWorkoutSchema Fixtures.Date_parse_sample
         (Fixtures.form "" "tomorrow" None) = inr errors
       /\ errors !! str "name" = Some [str "Workout name is required"]
       /\ errors !! str "date" = Some [str "Invalid date format"].
Proof.
  split.
  - apply (workout_form_validation Fixtures.Date_parse_sample
             (Fixtures.form "Leg day" "2025-01-15" None)).
    split; [cbn; lia|discriminate].
  - eexists. split; [reflexivity|].
    destruct (proj2 (workout_form_validation Fixtures.Date_parse_sample
                       (Fixtures.form "" "tomorrow" None)) _ eq_refl)
      as (Hname & Hdate & _).
    split; [exact Hname|exact Hdate].
Defined.

(** X13: the actions write nothing for a request they reject. Without an
    authenticated user both return 'Authentication required', whatever the
    form holds; with one, a form the schema rejects gets the schema's field
    errors back; in each case the store is as it was. *)
Theorem actions_reject_without_writing (Date_parse : jsstring -> option Z)
    (auth : option jsstring) (now_created now_updated : Date) (db : Db.t)
    (create : WorkoutForm) (update : UpdateWorkoutParams) :
  (falsy_string auth = true ->
     createWorkout Date_parse auth now_created now_updated db create
     = (Failure (Message (str "Authentication required")), db)
     /\ updateWorkout Date_parse auth now_updated db update
        = (Failure (Message (str "Authentication required")), db))
  /\ (falsy_string auth = false ->
      (forall errors, createWorkoutSchema Date_parse create = inr errors ->
         createWorkout Date_parse auth now_created now_updated db create
         = (Failure (FieldErrors errors), db))
      /\ (forall errors, updateWorkoutSchema Date_parse (form update) = inr errors ->
            updateWorkout Date_parse auth now_updated db update
            = (Failure (FieldErrors errors), db))).
Proof.
  unfold createWorkout, updateWorkout, unauthenticated. split.
  - intros Hunauth. destruct auth as [userId|]; [rewrite Hunauth|]; split; reflexivity.
  - intros Hauth. destruct auth as [userId|]; [rewrite Hauth|discriminate].
    split; intros errors ->; reflexivity.
Qed.

Lemma actions_reject_without_writing_witness :
  createWorkout Fixtures.Date_parse_sample None 0 0 Fixtures.db_diary
    (Fixtures.form "Leg day" "2025-01-15" None)
  = (Failure (Message (str "Authentication required")), Fixtures.db_diary)
  /\ snd (createWorkout Fixtures.Date_parse_sample (Some Fixtures.alice) 0 0
            Fixtures.db_diary (Fixtures.form "" "2025-01-15" None))
     = Fixtures.db_diary.
Proof.
  pose proof (actions_reject_without_writing Fixtures.Date_parse_sample None 0 0
                Fixtures.db_diary (Fixtures.form "Leg day" "2025-01-15" None)
                {| workoutId := 1; form := Fixtures.form "Leg day" "2025-01-15" None |})
    as [Hunauth _].
  pose proof (actions_reject_without_writing Fixtures.Date_parse_sample
                (Some Fixtures.alice) 0 0
                Fixtures.db_diary (Fixtures.form "" "2025-01-15" None)
                {| workoutId := 1; form := Fixtures.form "Leg day" "2025-01-15" None |})
    as [_ Hinvalid].
  split.
  - apply Hunauth. reflexivity.
  - destruct (Hinvalid eq_refl) as [Hcreate _].
    rewrite (Hcreate _ eq_refl). reflexivity.
Defined.

(** What [createWorkout] does with a request it accepts. *)
Lemma createWorkout_accepts (Date_parse : jsstring -> option Z) (userId : jsstring)
    (now_created now_updated : Date) (db : Db.t) (params : WorkoutForm) :
  userId <> [] ->
  (exists data, createWorkoutSchema Date_parse params = inl data) ->
  exists d,
    Date_parse (Actions.date params) = Some d
    /\ createWorkout Date_parse (Some userId) now_created now_updated db params
       = (Success (fst (createWorkoutHelper now_created now_updated db
                          {| data_name := Actions.name params;
                             data_date := d;
                             data_durationMinutes :=
                               durationMinutes_transform (Actions.durationMinutes params);
                             data_userId := userId |})),
          snd (createWorkoutHelper now_created now_updated db
                 {| data_name := Actions.name params;
                    data_date := d;
                    data_durationMinutes :=
                      durationMinutes_transform (Actions.durationMinutes params);
                    data_userId := userId |})).
Proof.
  intros Hauth [data Hvalid]. unfold createWorkout.
  destruct userId as [|c u]; [contradiction|]. cbn [unauthenticated falsy_string].
  rewrite Hvalid. unfold createWorkoutSchema in Hvalid.
  apply safeParse_inl in Hvalid as (_ & Hdate & ->). cbn [valid_date valid_name valid_durationMinutes].
  unfold date_issues in Hdate.
  destruct (Date_parse (Actions.date params)) as [d|]; [|discriminate].
  exists d. split; reflexivity.
Qed.

(** The outcomes of [createWorkout]: the store is as it was, or the request
    was accepted. *)
Lemma createWorkout_outcomes (Date_parse : jsstring -> option Z) (auth : option jsstring)
    (now_created now_updated : Date) (db : Db.t) (params : WorkoutForm) :
  (snd (createWorkout Date_parse auth now_created now_updated db params) = db
   /\ forall w, fst (createWorkout Date_parse auth now_created now_updated db params)
                <> Success w)
  \/ exists userId,
       auth = Some userId /\ userId <> []
       /\ exists data, createWorkoutSchema Date_parse params = inl data.
Proof.
  unfold createWorkout.
  destruct auth as [[|c u]|]; cbn [unauthenticated falsy_string];
    try (left; split; [reflexivity|discriminate]).
  destruct (createWorkoutSchema Date_parse params) as [data|errors] eqn:E.
  - right. exists (c :: u). split; [reflexivity|]. split; [discriminate|eauto].
  - left. split; [reflexivity|discriminate].
Qed.



(** ** Invariants of the store under [createWorkout] *)

Lemma createWorkoutHelper_keeps_key (now_created now_updated : Date) (db : Db.t)
    (data : NewWorkoutData) :
  Db.workouts_pkey db -> Invariant.workouts_seq_ahead db ->
  Db.workouts_pkey (snd (createWorkoutHelper now_created now_updated db data))
  /\ Invariant.workouts_seq_ahead (snd (createWorkoutHelper now_created now_updated db data)).
Proof.
  unfold Db.workouts_pkey, Invariant.workouts_seq_ahead. cbn.
  intros Hpk Hahead. split.
  - apply NoDup_map_snoc; [exact Hpk|].
    intros w Hw. specialize (Hahead w Hw). cbn. lia.
  - intros w Hw. apply in_app_iff in Hw as [Hw|[<-|[]]].
    + specialize (Hahead w Hw). lia.
    + cbn. lia.
Qed.

(** X15: [createWorkout] keeps the store well formed, whatever the request
    and its outcome: when [workouts.id] is unique and the id sequence is
    ahead of every id before the action, both hold after it, and the foreign
    key from workout exercises to exercises holds after it if it did
    before. *)
Theorem createWorkout_keeps_store_well_formed (Date_parse : jsstring -> option Z)
    (auth : option jsstring) (now_created now_updated : Date) (db : Db.t)
    (params : WorkoutForm) :
  Db.workouts_pkey db ->
  Invariant.workouts_seq_ahead db ->
  Db.workouts_pkey
    (snd (createWorkout Date_parse auth now_created now_updated db params))
  /\ Invariant.workouts_seq_ahead
       (snd (createWorkout Date_parse auth now_created now_updated db params))
  /\ (Db.exercise_fkey db ->
      Db.exercise_fkey
        (snd (createWorkout Date_parse auth now_created now_updated db params))).
Proof.
  intros Hpk Hahead.
  destruct (createWorkout_outcomes Date_parse auth now_created now_updated db params)
    as [[-> _]|(userId & -> & Hne & Hvalid)]; [auto|].
  destruct (createWorkout_accepts Date_parse userId now_created now_updated db params
              Hne Hvalid) as (d & _ & ->).
  cbn [snd].
  destruct (createWorkoutHelper_keeps_key now_created now_updated db
              {| data_name := Actions.name params; data_date := d;
                 data_durationMinutes :=
                   durationMinutes_transform (Actions.durationMinutes params);
                 data_userId := userId |} Hpk Hahead) as [Hpk' Hahead'].
  split; [exact Hpk'|]. split; [exact Hahead'|]. intros Hfk. exact Hfk.
Qed.

Lemma db_diary_seq_ahead : Invariant.workouts_seq_ahead Fixtures.db_diary.
Proof. intros w [<-|[<-|[]]]; cbn; lia. Defined.

Lemma createWorkout_keeps_store_well_formed_witness :
  Db.workouts_pkey
    (snd (createWorkout Fixtures.Date_parse_sample (Some Fixtures.alice) 10 11
            Fixtures.db_diary (Fixtures.form "Pull day" "2025-01-15" None))).
Proof.
  apply (createWorkout_keeps_store_well_formed Fixtures.Date_parse_sample
           (Some Fixtures.alice) 10 11 Fixtures.db_diary
           (Fixtures.form "Pull day" "2025-01-15" None)).
  - apply (bool_decide_unpack _). vm_compute. exact I.
  - exact db_diary_seq_ahead.
Defined.

(** ** Creating, then fetching *)

Lemma Forall2_In_l {A B} (P : A -> B -> Prop) (l : list A) (k : list B) (a : A) :
  Forall2 P l k -> In a l -> exists b, In b k /\ P a b.
Proof.
  induction 1 as [|x y l k Hxy _ IH]; intros Ha; [destruct Ha|].
  destruct Ha as [<-|Ha].
  - exists y. split; [now left|exact Hxy].
  - destruct (IH Ha) as (b & Hb & Hp). exists b. split; [now right|exact Hp].
Qed.

(** A stored workout that passes the [where] clause is in the result. *)
Lemma getWorkoutsByDate_lists (LocalTZA : Z -> bool -> Z) (db : Db.t)
    (userId : jsstring) (date : Date) (result : list WorkoutWithDetails.t)
    (w : Workout.t) :
  getWorkoutsByDate LocalTZA db userId date = Some result ->
  In w (Db.workouts db) ->
  where_user_and_day userId (setHours LocalTZA date 0 0 0 0)
    (setHours LocalTZA date 23 59 59 999) w = true ->
  exists d, In d result
    /\ WorkoutWithDetails.id d = Workout.id w
    /\ WorkoutWithDetails.name d = Workout.name w
    /\ WorkoutWithDetails.date d = Workout.date w
    /\ WorkoutWithDetails.durationMinutes d = Workout.durationMinutes w.
Proof.
  intros E Hw Hwhere. unfold getWorkoutsByDate in E. apply mapM_Some in E.
  assert (Hrow : In {| w_row := w; w_workoutExercises := with_workoutExercises db w |}
                   (findMany db userId (setHours LocalTZA date 0 0 0 0)
                      (setHours LocalTZA date 23 59 59 999))).
  { unfold findMany.
    apply (in_map (fun w => {| w_row := w;
                               w_workoutExercises := with_workoutExercises db w |})).
    apply orderBy_In. apply filter_In. auto. }
  destruct (Forall2_In_l _ _ _ _ E Hrow) as (d & Hd & Hdetails).
  exists d. split; [exact Hd|].
  unfold workout_details in Hdetails. cbn in Hdetails.
  destruct (mapM exercise_details (with_workoutExercises db w)); [|discriminate].
  injection Hdetails as <-. cbn. auto.
Qed.

Lemma local_day_bounds (offset : Z) (t : Date) :
  Spec.startOfLocalDay (fun _ _ => offset) t <= t
  < Spec.startOfNextLocalDay (fun _ _ => offset) t.
Proof.
  unfold Spec.startOfLocalDay, Spec.startOfNextLocalDay, UTC, LocalTime, MakeDate,
    Day, msPerDay.
  pose proof (Z.div_mod (t + offset) 86400000 ltac:(lia)).
  pose proof (Z.mod_pos_bound (t + offset) 86400000 ltac:(lia)).
  lia.
Qed.

(** X16: a workout just created is on the dashboard of its day: on a host
    with a fixed offset from UTC and a store that keeps its foreign key,
    after [createWorkout] succeeds, [getWorkoutsByDate] for the same user
    and the date of the workout returns a list that has the new workout,
    with its id, name, date and duration, unless the workout is dated in the
    last millisecond of its local day. *)
Theorem created_workout_is_listed (offset : Z) (Date_parse : jsstring -> option Z)
    (userId : jsstring) (now_created now_updated : Date) (db db' : Db.t)
    (params : WorkoutForm) (w : Workout.t) :
  Db.exercise_fkey db ->
  createWorkout Date_parse (Some userId) now_created now_updated db params
  = (Success w, db') ->
  Workout.date w <> Spec.startOfNextLocalDay (fun _ _ => offset) (Workout.date w) - 1 ->
  exists result d,
    getWorkoutsByDate (fun _ _ => offset) db' userId (Workout.date w) = Some result
    /\ In d result
    /\ WorkoutWithDetails.id d = Workout.id w
    /\ WorkoutWithDetails.name d = Workout.name w
    /\ WorkoutWithDetails.date d = Workout.date w
    /\ WorkoutWithDetails.durationMinutes d = Workout.durationMinutes w.
Proof.
  intros Hfk Hcreate Hlast.
  destruct (createWorkout_outcomes Date_parse (Some userId) now_created now_updated
              db params) as [[_ Hfail]|(u & [= <-] & Hne & Hvalid)].
  { rewrite Hcreate in Hfail. now destruct (Hfail w). }
  destruct (createWorkout_accepts Date_parse userId now_created now_updated db params
              Hne Hvalid) as (d0 & _ & E).
  rewrite E in Hcreate. clear E.
  match type of Hcreate with context [createWorkoutHelper ?a ?b ?c ?data] =>
    set (created := createWorkoutHelper a b c data) in Hcreate end.
  assert (w = fst created) as -> by congruence.
  assert (db' = snd created) as -> by congruence.
  assert (Hfk' : Db.exercise_fkey (snd created)) by exact Hfk.
  destruct (getWorkoutsByDate_returns (fun _ _ => offset) (snd created) userId
              (Workout.date (fst created)) Hfk') as [result Hresult].
  destruct (getWorkoutsByDate_lists _ _ _ _ _ (fst created) Hresult) as (d & Hd & Hfields).
  - cbn. apply in_app_iff. right. now left.
  - apply where_user_and_day_true. split; [reflexivity|].
    rewrite endOfDay_is_last_millisecond, startOfDay_is_local_midnight.
    pose proof (local_day_bounds offset (Workout.date (fst created))). lia.
  - exists result, d. split; [exact Hresult|]. split; [exact Hd|exact Hfields].
Qed.

Lemma created_workout_is_listed_witness :
  exists result d,
    getWorkoutsByDate utc
      (snd (createWorkout Fixtures.Date_parse_sample (Some Fixtures.alice) 10 11
              Fixtures.db_diary (Fixtures.form "Pull day" "2025-01-15" None)))
      Fixtures.alice Fixtures.jan15 = Some result
    /\ In d result /\ WorkoutWithDetails.id d = 3.
Proof.
  destruct (created_workout_is_listed 0 Fixtures.Date_parse_sample Fixtures.alice 10 11
              Fixtures.db_diary _ (Fixtures.form "Pull day" "2025-01-15" None) _
              fixture_fkey eq_refl ltac:(discriminate))
    as (result & d & Hresult & Hd & Hid & _).
  exists result, d. split; [exact Hresult|]. split; [exact Hd|exact Hid].
Defined.

(** A row appended for one user does not show in the rows found for
    another. *)
Lemma findMany_append_other (db db' : Db.t) (w : Workout.t) (other : jsstring)
    (startOfDay endOfDay : Date) :
  Db.exercises db' = Db.exercises db ->
  Db.workoutExercises db' = Db.workoutExercises db ->
  Db.sets db' = Db.sets db ->
  Db.workouts db' = Db.workouts db ++ [w] ->
  Workout.userId w <> other ->
  findMany db' other startOfDay endOfDay = findMany db other startOfDay endOfDay.
Proof.
  intros He Hwe Hs Hw Hother.
  unfold findMany, with_workoutExercises, with_exercise, with_sets.
  rewrite He, Hwe, Hs, Hw, List.filter_app. cbn [List.filter].
  unfold where_user_and_day at 2.
  rewrite bool_decide_eq_false_2 by exact Hother. cbn [andb].
  now rewrite app_nil_r.
Qed.

(** X17: [createWorkout] changes nothing another user sees: whatever the
    request of one user and its outcome, [getWorkoutsByDate] returns for any
    other user, on any date, what it returned before. *)
Theorem createWorkout_invisible_to_others (LocalTZA : Z -> bool -> Z)
    (Date_parse : jsstring -> option Z) (auth : option jsstring)
    (now_created now_updated : Date) (db : Db.t) (params : WorkoutForm)
    (other : jsstring) (date : Date) :
  auth <> Some other ->
  getWorkoutsByDate LocalTZA
    (snd (createWorkout Date_parse auth now_created now_updated db params)) other date
  = getWorkoutsByDate LocalTZA db other date.
Proof.
  intros Hother.
  destruct (createWorkout_outcomes Date_parse auth now_created now_updated db params)
    as [[-> _]|(userId & -> & Hne & Hvalid)]; [reflexivity|].
  destruct (createWorkout_accepts Date_parse userId now_created now_updated db params
              Hne Hvalid) as (d & _ & ->).
  unfold getWorkoutsByDate. cbn [snd]. f_equal.
  eapply findMany_append_other; try reflexivity.
  cbn. congruence.
Qed.

Lemma createWorkout_invisible_to_others_witness :
  getWorkoutsByDate utc
    (snd (createWorkout Fixtures.Date_parse_sample (Some Fixtures.alice) 10 11
            Fixtures.db_diary (Fixtures.form "Pull day" "2025-01-15" None)))
    Fixtures.bob Fixtures.jan15
  = getWorkoutsByDate utc Fixtures.db_diary Fixtures.bob Fixtures.jan15.
Proof.
  apply (createWorkout_invisible_to_others utc Fixtures.Date_parse_sample
           (Some Fixtures.alice) 10 11 Fixtures.db_diary
           (Fixtures.form "Pull day" "2025-01-15" None) Fixtures.bob Fixtures.jan15).
  discriminate.
Defined.

(** ** What a fetched workout carries *)

Lemma Forall2_map_l {A B C} (P : B -> C -> Prop) (f : A -> B) (l : list A) (k : list C) :
  Forall2 P (map f l) k -> Forall2 (fun a c => P (f a) c) l k.
Proof.
  revert k. induction l as [|a l IH]; intros k H; inversion H; subst; constructor; auto.
Qed.

Lemma Forall2_weaken {A B} (P Q : A -> B -> Prop) (l : list A) (k : list B) :
  (forall a b, P a b -> Q a b) -> Forall2 P l k -> Forall2 Q l k.
Proof. intros Himp. induction 1; constructor; auto. Qed.

(** X18: each workout [getWorkoutsByDate] returns carries exactly the rows
    stored for it: its exercises are the workout-exercise rows of that
    workout, each once, each with its order index and the id, name and
    muscle group of the catalog exercise it references; the sets of each are
    the set rows stored for that workout exercise, each once. *)
Theorem getWorkoutsByDate_nested_rows (LocalTZA : Z -> bool -> Z) (db : Db.t)
    (userId : jsstring) (date : Date) (result : list WorkoutWithDetails.t) :
  getWorkoutsByDate LocalTZA db userId date = Some result ->
  Forall (fun d =>
    exists wes,
      Permutation wes
        (List.filter
           (fun we => WorkoutExercise.workoutId we =? WorkoutWithDetails.id d)
           (Db.workoutExercises db))
      /\ Forall2 (fun we e =>
           ExerciseDetails.orderIndex e = WorkoutExercise.orderIndex we
           /\ (exists ex,
                 In ex (Db.exercises db)
                 /\ Exercise.id ex = WorkoutExercise.exerciseId we
                 /\ ExerciseDetails.id e = Exercise.id ex
                 /\ ExerciseDetails.name e = Exercise.name ex
                 /\ ExerciseDetails.muscleGroup e = Exercise.muscleGroup ex)
           /\ exists ss,
                Permutation ss
                  (List.filter
                     (fun s => SetRow.workoutExerciseId s =? WorkoutExercise.id we)
                     (Db.sets db))
                /\ ExerciseDetails.sets e = map set_details ss)
         wes (WorkoutWithDetails.exercises d)) result.
Proof.
  intros E. unfold getWorkoutsByDate in E. apply mapM_Some in E.
  eapply Forall_impl; [exact (Forall2_source _ _ _ E)|].
  cbn. intros d (r & Hr & Hd).
  unfold findMany in Hr. apply in_map_iff in Hr as (w & <- & _).
  apply workout_details_Some in Hd as (Hid & _ & Hexs). cbn in Hid, Hexs.
  rewrite Hid. unfold with_workoutExercises in Hexs.
  eexists. split; [apply orderBy_Permutation|].
  apply mapM_Some in Hexs. apply Forall2_map_l in Hexs.
  eapply Forall2_weaken; [|exact Hexs].
  cbn. intros we e He. unfold exercise_details in He. cbn in He.
  unfold with_exercise in He.
  destruct (List.find _ (Db.exercises db)) as [ex|] eqn:Hfind; [|discriminate].
  apply find_some in Hfind as [Hin Hex]. apply Z.eqb_eq in Hex.
  injection He as <-. cbn. split; [reflexivity|]. split.
  - exists ex. auto.
  - exists (with_sets db we). split; [apply orderBy_Permutation|reflexivity].
Qed.

Lemma getWorkoutsByDate_nested_rows_witness :
  exists result,
    getWorkoutsByDate utc Fixtures.db_diary Fixtures.alice Fixtures.jan15 = Some result
    /\ map (fun d => map ExerciseDetails.name (WorkoutWithDetails.exercises d)) result
       = [[str "Bench Press"; str "Squat"; str "Deadlift"]]
    /\ Forall (fun d =>
         exists wes,
           Permutation wes
             (List.filter
                (fun we => WorkoutExercise.workoutId we =? WorkoutWithDetails.id d)
                (Db.workoutExercises Fixtures.db_diary))
           /\ length wes = length (WorkoutWithDetails.exercises d)) result.
Proof.
  eexists. split; [vm_compute; reflexivity|]. split; [reflexivity|].
  eapply Forall_impl;
    [exact (getWorkoutsByDate_nested_rows utc Fixtures.db_diary Fixtures.alice
              Fixtures.jan15 _ ltac:(vm_compute; reflexivity))|].
  cbn beta. intros d (wes & Hperm & Hall).
  exists wes. split; [exact Hperm|]. eapply Forall2_length, Hall.
Defined.

(** ** The preference among other cookies *)

(** X19: the unit preference depends on its own cookie only, and writing it
    touches no other cookie: setting or deleting a cookie of another name
    leaves [getWeightUnitPreference] as it was, and
    [setWeightUnitPreferenceCookie] leaves every cookie of another name as
    it was. *)
Theorem preference_cookie_is_separate (name value : jsstring) (unit : WeightUnit)
    (cookieStore : cookies) :
  name <> COOKIE_NAME ->
  getWeightUnitPreference (<[name := value]> cookieStore)
  = getWeightUnitPreference cookieStore
  /\ getWeightUnitPreference (delete name cookieStore)
     = getWeightUnitPreference cookieStore
  /\ setWeightUnitPreferenceCookie unit cookieStore !! name = cookieStore !! name.
Proof.
  intros Hname. unfold getWeightUnitPreference, setWeightUnitPreferenceCookie.
  rewrite lookup_insert_ne by exact Hname.
  rewrite lookup_delete_ne by exact Hname.
  rewrite lookup_insert_ne by congruence.
  repeat split.
Qed.

Lemma preference_cookie_is_separate_witness :
  getWeightUnitPreference (<[str "session" := str "abc"]> {[ COOKIE_NAME := str "kg" ]})
  = getWeightUnitPreference {[ COOKIE_NAME := str "kg" ]}.
Proof.
  apply (preference_cookie_is_separate (str "session") (str "abc") lbs
           {[ COOKIE_NAME := str "kg" ]}).
  discriminate.
Defined.

(** ** The date the picker writes, read by the page *)

Import DatePicker.

Lemma split_from_piece (separator : N) (piece rest current : jsstring) :
  ~ In separator piece ->
  split_from separator (piece ++ rest) current
  = split_from separator rest (rev piece ++ current).
Proof.
  revert current. induction piece as [|c piece IH]; intros current Hfree; [reflexivity|].
  cbn [app split_from].
  destruct (N.eqb_spec c separator) as [->|_]; [exfalso; apply Hfree; now left|].
  rewrite IH by (intros Hin; apply Hfree; now right).
  cbn [rev]. now rewrite <- app_assoc.
Qed.

(** A piece without the separator, then the separator: the piece is the
    first part. *)
Lemma split_piece (separator : N) (piece rest : jsstring) :
  ~ In separator piece ->
  split separator (piece ++ separator :: rest) = piece :: split separator rest.
Proof.
  intros Hfree. unfold split. rewrite split_from_piece by exact Hfree.
  cbn [split_from]. rewrite N.eqb_refl, app_nil_r, rev_involutive. reflexivity.
Qed.

Lemma split_last (separator : N) (piece : jsstring) :
  ~ In separator piece -> split separator piece = [piece].
Proof.
  intros Hfree. unfold split.
  rewrite <- (app_nil_r piece) at 1. rewrite split_from_piece by exact Hfree.
  cbn. now rewrite app_nil_r, rev_involutive.
Qed.

Lemma digits_no_hyphen (ds : list Z) :
  Forall (fun d => 0 <= d <= 9) ds -> ~ In 45%N (map digitChar ds).
Proof.
  intros Hds Hin. apply in_map_iff in Hin as (d & Hd & Hin).
  rewrite List.Forall_forall in Hds. specialize (Hds d Hin).
  destruct (digitChar_plain d Hds) as (_ & Hminus & _).
  rewrite Hd in Hminus. discriminate.
Qed.

Lemma intToString_no_hyphen (n : Z) : 0 <= n -> ~ In 45%N (intToString n).
Proof.
  intros Hn. unfold intToString. destruct (Z.ltb_spec n 0); [lia|].
  apply digits_no_hyphen. now apply intToString_digits.
Qed.

Lemma padStart_no_hyphen (n : Z) : 0 <= n -> ~ In 45%N (padStart 2 48 (intToString n)).
Proof.
  intros Hn Hin. unfold padStart in Hin. apply in_app_iff in Hin as [Hin|Hin].
  - apply repeat_spec in Hin. discriminate.
  - now apply (intToString_no_hyphen n).
Qed.

(** [parseInt] reads a numeral padded with zeros as the number. *)
Lemma parseInt10_padStart (n : Z) :
  0 <= n -> parseInt10 (padStart 2 48 (intToString n)) = Some n.
Proof.
  intros Hn. unfold padStart, intToString. destruct (Z.ltb_spec n 0); [lia|].
  destruct (intToString_digits n Hn) as (Hval & Hds & Hne).
  set (ds := digitsOf (S (Z.to_nat (Z.log2 n))) n) in *.
  replace (repeat 48%N (2 - length (map digitChar ds)) ++ map digitChar ds)
    with (map digitChar (repeat 0 (2 - length (map digitChar ds)) ++ ds)).
  2:{ rewrite map_app. f_equal. generalize (2 - length (map digitChar ds))%nat.
      intros k. induction k as [|k IH]; cbn; [reflexivity|]. now rewrite IH. }
  assert (Hzeros : forall k, mathInt (repeat 0 k ++ ds) = mathInt ds).
  { intros k. induction k as [|k IH]; [reflexivity|]. exact IH. }
  destruct (parseInt10_digits (repeat 0 (2 - length (map digitChar ds)) ++ ds)) as [-> _].
  - apply Forall_app. split; [|exact Hds].
    apply List.Forall_forall. intros d Hd. apply repeat_spec in Hd. lia.
  - intros E. apply app_eq_nil in E as [_ E]. contradiction.
  - now rewrite Hzeros, Hval.
Qed.

(** X20: the date string the picker builds comes apart again on the page:
    for a year that is not negative, a month index and a day that are not
    negative, splitting the string at its hyphens gives exactly three
    parts, the numerals of the year, of the month (index plus one) and of
    the day, the last two padded to two digits, and the page takes [Number]
    of each; read as integers the three are the year, the month and the
    day. *)
Theorem picker_date_comes_apart {T : Type} (Number : jsstring -> T)
    (year month date : Z) :
  0 <= year -> 0 <= month -> 0 <= date ->
  dateParts Number (dateStr year month date)
  = [Number (intToString year);
     Number (padStart 2 48 (intToString (month + 1)));
     Number (padStart 2 48 (intToString date))]
  /\ parseInt10 (intToString year) = Some year
  /\ parseInt10 (padStart 2 48 (intToString (month + 1))) = Some (month + 1)
  /\ parseInt10 (padStart 2 48 (intToString date)) = Some date.
Proof.
  intros Hy Hm Hd. split.
  - unfold dateParts, dateStr. f_equal.
    change (str "-") with [45%N]. cbn [app].
    rewrite split_piece by now apply intToString_no_hyphen.
    rewrite split_piece by (apply padStart_no_hyphen; lia).
    rewrite split_last by now apply padStart_no_hyphen.
    reflexivity.
  - split; [apply parseInt10_intToString|].
    split; apply parseInt10_padStart; lia.
Qed.

Lemma picker_date_comes_apart_witness :
  dateStr 2025 0 5 = str "2025-01-05"
  /\ dateParts parseInt10 (dateStr 2025 0 5) = [Some 2025; Some 1; Some 5].
Proof.
  split; [reflexivity|].
  destruct (picker_date_comes_apart parseInt10 2025 0 5) as (-> & -> & -> & ->);
    [lia|lia|lia|reflexivity].
Defined.

(** A negative year puts a hyphen in front: the string has four parts. *)
Example picker_negative_year :
  dateStr (-1) 0 5 = str "-1-01-05"
  /\ split 45 (dateStr (-1) 0 5) = [str ""; str "1"; str "01"; str "05"].
Proof. split; reflexivity. Qed.

(** ** When fetching fails *)

Lemma exercise_details_None (db : Db.t) (we : WorkoutExercise.t) :
  exercise_details {| we_row := we; we_exercise := with_exercise db we;
                      we_sets := with_sets db we |} = None
  <-> forall e, In e (Db.exercises db) -> Exercise.id e <> WorkoutExercise.exerciseId we.
Proof.
  unfold exercise_details, with_exercise. cbn. split.
  - destruct (List.find _ (Db.exercises db)) eqn:Hfind; [discriminate|].
    intros _ e He Hid. apply (find_none _ _ Hfind) in He.
    rewrite Hid, Z.eqb_refl in He. discriminate.
  - intros Hnone. destruct (List.find _ (Db.exercises db)) as [e|] eqn:Hfind; [|reflexivity].
    apply find_some in Hfind as [He Hid]. apply Z.eqb_eq in Hid.
    now destruct (Hnone e He).
Qed.

Lemma workout_details_None (db : Db.t) (w : Workout.t) :
  workout_details {| w_row := w; w_workoutExercises := with_workoutExercises db w |} = None
  <-> exists we,
        In we (Db.workoutExercises db) /\ WorkoutExercise.workoutId we = Workout.id w
        /\ forall e, In e (Db.exercises db) ->
             Exercise.id e <> WorkoutExercise.exerciseId we.
Proof.
  unfold workout_details. cbn [w_workoutExercises w_row].
  destruct (mapM exercise_details (with_workoutExercises db w)) as [exs|] eqn:Hm.
  - split; [discriminate|]. intros (we & Hwe & Hid & Hnone). exfalso.
    assert (Hex : Exists (fun r => exercise_details r = None) (with_workoutExercises db w)).
    { apply List.Exists_exists. eexists. split.
      - unfold with_workoutExercises.
        apply (in_map (fun we => {| we_row := we; we_exercise := with_exercise db we;
                                    we_sets := with_sets db we |})).
        apply orderBy_In, filter_In. split; [exact Hwe|]. now apply Z.eqb_eq.
      - now apply exercise_details_None. }
    apply mapM_None in Hex. congruence.
  - split; [intros _|reflexivity].
    apply mapM_None, List.Exists_exists in Hm as (r & Hr & Hnone).
    unfold with_workoutExercises in Hr. apply in_map_iff in Hr as (we & <- & Hwe).
    apply orderBy_In, filter_In in Hwe as [Hwe Hid]. apply Z.eqb_eq in Hid.
    exists we. split; [exact Hwe|]. split; [exact Hid|].
    now apply exercise_details_None.
Qed.

(** X21: [getWorkoutsByDate] fails (on reading the exercise of a workout
    exercise) exactly when a workout that passes its [where] clause has a
    workout exercise whose exercise is not in the catalog; a dangling
    reference under a workout the query does not select does no harm. *)
Theorem getWorkoutsByDate_fails_iff (LocalTZA : Z -> bool -> Z) (db : Db.t)
    (userId : jsstring) (date : Date) :
  getWorkoutsByDate LocalTZA db userId date = None
  <-> exists w we,
        In w (Db.workouts db)
        /\ where_user_and_day userId (setHours LocalTZA date 0 0 0 0)
             (setHours LocalTZA date 23 59 59 999) w = true
        /\ In we (Db.workoutExercises db)
        /\ WorkoutExercise.workoutId we = Workout.id w
        /\ forall e, In e (Db.exercises db) ->
             Exercise.id e <> WorkoutExercise.exerciseId we.
Proof.
  unfold getWorkoutsByDate. rewrite mapM_None, List.Exists_exists. split.
  - intros (r & Hr & Hnone). unfold findMany in Hr.
    apply in_map_iff in Hr as (w & <- & Hw).
    apply orderBy_In, filter_In in Hw as [Hw Hwhere].
    apply workout_details_None in Hnone as (we & Hwe & Hid & Hmissing).
    exists w, we. auto.
  - intros (w & we & Hw & Hwhere & Hwe & Hid & Hmissing).
    exists {| w_row := w; w_workoutExercises := with_workoutExercises db w |}. split.
    + unfold findMany.
      apply (in_map (fun w => {| w_row := w;
                                 w_workoutExercises := with_workoutExercises db w |})).
      apply orderBy_In, filter_In. auto.
    + apply workout_details_None. exists we. auto.
Qed.

(** A workout exercise of Alice's workout that references no exercise of the
    catalog. *)
Example getWorkoutsByDate_dangling_reference :
  let db :=
    {| Db.exercises := Fixtures.catalog;
       Db.workouts := Db.workouts Fixtures.db_diary;
       Db.workoutExercises := [Fixtures.workoutExercise 10 1 99 0];
       Db.sets := [];
       Db.workouts_id_seq := 3 |} in
  getWorkoutsByDate utc db Fixtures.alice Fixtures.jan15 = None
  /\ getWorkoutsByDate utc db Fixtures.bob Fixtures.jan15
     = Some [ {| WorkoutWithDetails.id := 2; WorkoutWithDetails.name := str "Leg day";
                 WorkoutWithDetails.date := Fixtures.jan15;
                 WorkoutWithDetails.durationMinutes := None;
                 WorkoutWithDetails.exercises := [] |} ].
Proof. split; reflexivity. Qed.

(** ** A created workout on the dashboard *)

(** X22: for a workout [createWorkout] has created, the dashboard shows
    either no duration at all or the clock with the formatted duration: the
    bare "0" that the page shows for a stored duration of zero cannot
    appear, since a duration of zero is stored as null. *)
Theorem created_workout_duration_element (Date_parse : jsstring -> option Z)
    (auth : option jsstring) (now_created now_updated : Date) (db db' : Db.t)
    (params : WorkoutForm) (w : Workout.t) :
  createWorkout Date_parse auth now_created now_updated db params = (Success w, db') ->
  (Workout.durationMinutes w = None
   /\ durationElement (Workout.durationMinutes w) = Nothing)
  \/ (exists n, Workout.durationMinutes w = Some n /\ n <> 0
      /\ durationElement (Workout.durationMinutes w)
         = ClockAndSpan (formatDuration (Some n))).
Proof.
  intros Hcreate.
  destruct (createWorkout_outcomes Date_parse auth now_created now_updated db params)
    as [[_ Hfail]|(userId & -> & Hne & Hvalid)].
  { rewrite Hcreate in Hfail. now destruct (Hfail w). }
  destruct (createWorkout_accepts Date_parse userId now_created now_updated db params
              Hne Hvalid) as (d & _ & E).
  rewrite E in Hcreate. clear E.
  match type of Hcreate with context [createWorkoutHelper ?a ?b ?c ?data] =>
    set (created := createWorkoutHelper a b c data) in Hcreate end.
  assert (w = fst created) as -> by congruence.
  subst created. cbn.
  destruct (durationMinutes_transform (Actions.durationMinutes params)) as [n|]; cbn;
    [|left; split; reflexivity].
  destruct (Z.eqb_spec n 0) as [->|Hnz]; cbn; [left; split; reflexivity|].
  right. exists n. destruct (Z.eqb_spec n 0); [contradiction|]. auto.
Qed.

Lemma created_workout_duration_element_witness :
  durationElement
    (Workout.durationMinutes
       {| Workout.id := 3; Workout.userId := Fixtures.alice;
          Workout.name := str "Pull day"; Workout.date := Fixtures.jan15;
          Workout.durationMinutes := None;
          Workout.createdAt := 10; Workout.updatedAt := 11 |}) = Nothing.
Proof.
  destruct (created_workout_duration_element Fixtures.Date_parse_sample
              (Some Fixtures.alice) 10 11 Fixtures.db_diary _
              (Fixtures.form "Pull day" "2025-01-15" (Some "0"%string)) _ eq_refl)
    as [[_ H]|(n & Hn & _)]; [exact H|discriminate Hn].
Defined.

(** ** The numbers [convertWeight] returns *)

Section float_facts.
Import SpecFloat.

Lemma shr_1_nonneg (mrs : shr_record) : 0 <= shr_m mrs -> 0 <= shr_m (shr_1 mrs).
Proof.
  destruct mrs as [m r s]. cbn. destruct m as [|p|p]; cbn; try lia.
  destruct p; cbn; lia.
Qed.

Lemma iter_shr_1_nonneg (p : positive) (mrs : shr_record) :
  0 <= shr_m mrs -> 0 <= shr_m (iter_pos shr_1 p mrs).
Proof.
  revert mrs. induction p as [p IH|p IH|]; intros mrs H; cbn.
  - apply IH, IH, shr_1_nonneg, H.
  - apply IH, IH, H.
  - now apply shr_1_nonneg.
Qed.

Lemma shr_fexp_nonneg (prec emax m e : Z) (l : location) :
  0 <= m -> 0 <= shr_m (fst (shr_fexp prec emax m e l)).
Proof.
  intros H. unfold shr_fexp, shr.
  assert (H0 : 0 <= shr_m (shr_record_of_loc m l)) by (destruct l as [|[| |]]; exact H).
  destruct (fexp prec emax (Zdigits2 m + e) - e); cbn; auto.
  now apply iter_shr_1_nonneg.
Qed.

Lemma round_nearest_even_nonneg (m : Z) (l : location) :
  0 <= m -> 0 <= round_nearest_even m l.
Proof.
  intros H. unfold round_nearest_even. destruct l as [|[| |]]; try lia.
  destruct (Z.even m); lia.
Qed.

(** Rounding a non-negative mantissa yields a zero, a finite number or an
    infinity, of the sign given. *)
Lemma binary_round_aux_cases (prec emax : Z) (sx : bool) (m e : Z) (l : location) :
  0 <= m ->
  binary_round_aux prec emax sx m e l = S754_zero sx
  \/ binary_round_aux prec emax sx m e l = S754_infinity sx
  \/ exists m' e', binary_round_aux prec emax sx m e l = S754_finite sx m' e'.
Proof.
  intros H. unfold binary_round_aux.
  pose proof (shr_fexp_nonneg prec emax m e l H) as H1.
  destruct (shr_fexp prec emax m e l) as [mrs' e']. cbn in H1.
  pose proof (shr_fexp_nonneg prec emax _ e' loc_Exact
                (round_nearest_even_nonneg (shr_m mrs') (loc_of_shr_record mrs') H1))
    as H2.
  destruct (shr_fexp prec emax _ e' loc_Exact) as [mrs'' e'']. cbn in H2.
  destruct (shr_m mrs'') as [|p|p]; [auto| |lia].
  destruct (e'' <=? emax - prec); eauto.
Qed.

Lemma is_nan_Prim2SF (x : float) :
  is_nan x = true <-> FloatOps.Prim2SF x = S754_nan.
Proof.
  unfold is_nan. rewrite FloatAxioms.eqb_spec.
  destruct (FloatOps.Prim2SF x) as [s|s| |s m e]; cbn.
  - destruct s; cbn; split; discriminate.
  - destruct s; cbn; split; discriminate.
  - split; reflexivity.
  - unfold SFeqb, SFcompare. rewrite Z.compare_refl.
    destruct s; rewrite ?Pos.compare_cont_refl; cbn; try rewrite Pos.compare_refl;
      cbn; split; discriminate.
Qed.

(** A number is at least 0 when it is a zero, or a finite number or an
    infinity with the positive sign. *)
Lemma nonneg_Prim2SF (x : float) :
  (0 <=? x)%float = true <->
  (exists s, FloatOps.Prim2SF x = S754_zero s)
  \/ FloatOps.Prim2SF x = S754_infinity false
  \/ exists m e, FloatOps.Prim2SF x = S754_finite false m e.
Proof.
  rewrite FloatAxioms.leb_spec.
  change (FloatOps.Prim2SF 0) with (S754_zero false).
  destruct (FloatOps.Prim2SF x) as [s|s| |s m e]; try destruct s; cbn.
  all: split;
    [ first [discriminate | intros _; eauto 6]
    | intros H; first [reflexivity
                      | destruct H as [[? H]|[H|(? & ? & H)]]; discriminate] ].
Qed.

(** The product of a number with a finite positive constant. *)
Lemma mul_positive_constant (x c : float) (m : positive) (e : Z) :
  FloatOps.Prim2SF c = S754_finite false m e ->
  is_nan x = false ->
  is_nan (x * c)%float = false
  /\ ((0 <=? x)%float = true -> (0 <=? x * c)%float = true).
Proof.
  intros Hc Hx.
  assert (Hx' : FloatOps.Prim2SF x <> S754_nan).
  { intros H. apply is_nan_Prim2SF in H. congruence. }
  pose proof (FloatAxioms.mul_spec x c) as Hmul. rewrite Hc in Hmul.
  unfold FloatAxioms.SF64mul, SFmul in Hmul.
  split.
  - destruct (is_nan (x * c)) eqn:E; [|reflexivity].
    apply is_nan_Prim2SF in E. rewrite E in Hmul.
    destruct (FloatOps.Prim2SF x) as [sx|sx| |sx mx ex]; try discriminate;
      try contradiction.
    destruct (binary_round_aux_cases FloatOps.prec FloatOps.emax (xorb sx false)
                (Zpos (mx * m)) (ex + e) loc_Exact ltac:(lia))
      as [H|[H|(m' & e' & H)]]; congruence.
  - intros Hpos. apply nonneg_Prim2SF in Hpos. apply nonneg_Prim2SF.
    destruct (FloatOps.Prim2SF x) as [sx|sx| |sx mx ex]; try contradiction.
    + left. eauto.
    + destruct Hpos as [[? H]|[H|(? & ? & H)]]; try discriminate.
      injection H as ->. right. left. exact Hmul.
    + destruct Hpos as [[? H]|[H|(? & ? & H)]]; try discriminate.
      injection H as -> _ _.
      destruct (binary_round_aux_cases FloatOps.prec FloatOps.emax (xorb false false)
                  (Zpos (mx * m)) (ex + e) loc_Exact ltac:(lia))
        as [H|[H|(m' & e' & H)]]; rewrite H in Hmul; cbn in Hmul; eauto.
Qed.
End float_facts.

Lemma LBS_TO_KG_finite :
  FloatOps.Prim2SF LBS_TO_KG = SpecFloat.S754_finite false 8171187048712952 (-54).
Proof. vm_compute. reflexivity. Qed.

Lemma KG_TO_LBS_finite :
  FloatOps.Prim2SF KG_TO_LBS = SpecFloat.S754_finite false 4964362905246771 (-51).
Proof. vm_compute. reflexivity. Qed.

(** X23: [convertWeight] never returns [NaN], whatever the input and the
    units; and a weight that is not negative is never turned into a negative
    one: when the numeric value of the input is at least 0, so is the
    result. *)
Theorem convertWeight_never_NaN (parseFloat : jsstring -> float)
    (weight : weight_input) (fromUnit toUnit : WeightUnit) :
  is_nan (convertWeight parseFloat weight fromUnit toUnit) = false
  /\ ((0 <=? numWeight parseFloat weight)%float = true ->
      (0 <=? convertWeight parseFloat weight fromUnit toUnit)%float = true).
Proof.
  unfold convertWeight.
  destruct (is_nan (numWeight parseFloat weight)) eqn:Hnan.
  - split; reflexivity.
  - destruct (mul_positive_constant (numWeight parseFloat weight) LBS_TO_KG _ _
                LBS_TO_KG_finite Hnan) as [Hk1 Hk2].
    destruct (mul_positive_constant (numWeight parseFloat weight) KG_TO_LBS _ _
                KG_TO_LBS_finite Hnan) as [Hl1 Hl2].
    destruct fromUnit, toUnit; cbn; auto.
Qed.

Lemma convertWeight_never_NaN_witness :
  (0 <=? convertWeight Fixtures.parseFloat_sample (WStr (str "185.50")) lbs kg)%float
  = true.
Proof.
  apply (convertWeight_never_NaN Fixtures.parseFloat_sample (WStr (str "185.50")) lbs kg).
  reflexivity.
Defined.
